(** * School clustering API: a shallow embedding of [model/clustering_api.py]

    The service is embedded function by function: [clean_text], the two
    lookup helpers, the ML and the rule-based predictors, [predict_single],
    [health_check], [get_cluster_batch], the loading of the model at
    start-up, [get_cluster] and [test_endpoint].

    Conventions of the embedding.
    - A Python [str] is a [string] whose characters are the code points
      0..255 (Latin-1); the character classes below are Python's classes
      ([str.lower], [str.isspace], the [re] classes [\w] and [\s] on [str]
      patterns) restricted to that range.
    - A Python [int] is a [Z]; a Python [float] is a binary64 number of
      [SpecFloat] ([prec = 53], [emax = 1024]). Where CPython limits what
      it does with a large integer, the limit is part of the embedding:
      an index of a list must fit [Py_ssize_t] (64 bits), and an integer
      of more than 4300 digits is not converted to text.
    - A computation that may raise is a value of [Exc]; [try]/[except
      Exception] is [try_except].
    - The pickled vectorizer and k-means model are not part of the
      repository: the environment [Env] carries the flag [MODEL_LOADED] and
      an oracle for the one expression that uses them.
    - The clock is an input: each function takes the readings of
      [time.time()] that it makes.
    Start-up, [get_cluster] and [test_endpoint] are embedded after the
    pipeline. The root endpoint, whose texts hold characters beyond the
    code point 255, the CORS set-up and the prints are left out. *)

From Stdlib Require Import ZArith List String Ascii Bool Lia.
From Stdlib Require Import Floats.SpecFloat.
From Stdlib Require Import QArith DecimalString.
Import ListNotations.

Set Warnings "-register-all".
Local Open Scope string_scope.
Local Open Scope Z_scope.

(** ** Exceptions *)

(** The exceptions of class [Exception] that the embedded code can meet;
    [KeyError] carries the [repr] of the missing key, [ExternalError] is
    whatever the vectorizer or the model raises. *)
Inductive exn : Type :=
| IndexError (msg : string)
| KeyError (key_repr : string)
| ValueError (msg : string)
| TypeError (msg : string)
| ZeroDivisionError (msg : string)
| OverflowError (msg : string)
| ExternalError (msg : string).

(** [str(e)]. *)
Definition exn_str (e : exn) : string :=
  match e with
  | IndexError msg | KeyError msg | ValueError msg | TypeError msg
  | ZeroDivisionError msg | OverflowError msg | ExternalError msg => msg
  end.

Inductive Exc (A : Type) : Type :=
| Ok (a : A)
| Raise (e : exn).

Arguments Ok {A} a.
Arguments Raise {A} e.

Definition bind {A B : Type} (m : Exc A) (k : A -> Exc B) : Exc B :=
  match m with
  | Ok a => k a
  | Raise e => Raise e
  end.

Notation "x <- m ;; k" := (bind m (fun x => k))
  (at level 61, m at next level, right associativity).
Notation "' p <- m ;; k" := (bind m (fun x => match x with p => k end))
  (at level 61, p pattern, m at next level, right associativity).

(** [try: body except Exception as e: handler e]. *)
Definition try_except {A : Type} (body : Exc A) (handler : exn -> Exc A) : Exc A :=
  match body with
  | Ok a => Ok a
  | Raise e => handler e
  end.

(** ** Python strings *)

Module PyStr.

Definition code (c : ascii) : N := N_of_ascii c.

Definition in_range (lo hi : N) (c : ascii) : bool :=
  (N.leb lo (code c) && N.leb (code c) hi)%bool.

(** Characters that [str.lower] changes: each goes to the code point 32
    above it. *)
Definition is_upper (c : ascii) : bool :=
  (in_range 65 90 c || in_range 192 214 c || in_range 216 222 c)%bool.

Definition lower_char (c : ascii) : ascii :=
  if is_upper c then ascii_of_N (code c + 32) else c.

Fixpoint lower (s : string) : string :=
  match s with
  | EmptyString => EmptyString
  | String c s' => String (lower_char c) (lower s')
  end.

(** [str.isspace] on one character; also the class [\s]. *)
Definition is_space (c : ascii) : bool :=
  (in_range 9 13 c || in_range 28 32 c || N.eqb (code c) 133
   || N.eqb (code c) 160)%bool.

(** The class [\w]: alphanumeric characters and the underscore. *)
Definition is_word (c : ascii) : bool :=
  (in_range 48 57 c || in_range 65 90 c || N.eqb (code c) 95
   || in_range 97 122 c || N.eqb (code c) 170 || in_range 178 179 c
   || N.eqb (code c) 181 || in_range 185 186 c || in_range 188 190 c
   || in_range 192 214 c || in_range 216 246 c || in_range 248 255 c)%bool.

(** The characters the class [[^\w\s.,-]] does not match. *)
Definition is_kept (c : ascii) : bool :=
  (is_word c || is_space c || Ascii.eqb c "." || Ascii.eqb c ","
   || Ascii.eqb c "-")%bool.

(** [re.sub(r'[^\w\s.,-]', '', s)]. *)
Fixpoint remove_unkept (s : string) : string :=
  match s with
  | EmptyString => EmptyString
  | String c s' =>
      if is_kept c then String c (remove_unkept s') else remove_unkept s'
  end.

(** [re.sub(r'\s+', ' ', s)]; [in_run] tells that the previous character
    belonged to the run of white space being replaced. *)
Fixpoint collapse_from (in_run : bool) (s : string) : string :=
  match s with
  | EmptyString => EmptyString
  | String c s' =>
      if is_space c
      then if in_run then collapse_from true s'
           else String " " (collapse_from true s')
      else String c (collapse_from false s')
  end.

Definition collapse_spaces (s : string) : string := collapse_from false s.

Fixpoint drop (n : nat) (s : string) : string :=
  match n, s with
  | O, _ => s
  | S _, EmptyString => EmptyString
  | S k, String _ s' => drop k s'
  end.

(** [old in s]. *)
Fixpoint contains (old s : string) : bool :=
  (prefix old s
   || match s with
      | EmptyString => false
      | String _ s' => contains old s'
      end)%bool.

(** The scan of [str.replace] for a non-empty [old]: left to right, an
    occurrence of [old] at the current position is replaced and skipped
    whole ([skip] counts the characters of it still to pass). *)
Fixpoint replace_scan (old new : string) (skip : nat) (s : string) : string :=
  match s with
  | EmptyString => EmptyString
  | String c s' =>
      match skip with
      | S k => replace_scan old new k s'
      | O =>
          if prefix old s
          then new ++ replace_scan old new (String.length old - 1) s'
          else String c (replace_scan old new O s')
      end
  end.

(** For the empty [old], [str.replace] puts [new] before every character
    and at the end. *)
Fixpoint intersperse (new s : string) : string :=
  match s with
  | EmptyString => new
  | String c s' => new ++ String c (intersperse new s')
  end.

Definition replace (old new s : string) : string :=
  match old with
  | EmptyString => intersperse new s
  | String _ _ => replace_scan old new O s
  end.

Fixpoint lstrip (s : string) : string :=
  match s with
  | EmptyString => EmptyString
  | String c s' => if is_space c then lstrip s' else s
  end.

Fixpoint rstrip (s : string) : string :=
  match s with
  | EmptyString => EmptyString
  | String c s' =>
      match rstrip s' with
      | EmptyString => if is_space c then EmptyString else String c EmptyString
      | r => String c r
      end
  end.

Definition strip (s : string) : string := rstrip (lstrip s).

(** [x or default] for strings: the empty string is falsy. *)
Definition or_default (x default : string) : string :=
  match x with
  | EmptyString => default
  | _ => x
  end.

(** The decimal digits of an integer, with its sign. *)
Definition of_int (n : Z) : string :=
  NilZero.string_of_int (Z.to_int n).

(** [str(n)] and [f"{n}"] for an integer: CPython refuses to convert an
    integer of more than [sys.get_int_max_str_digits()] digits, 4300
    unless the interpreter is configured otherwise, which the service
    does not do. An integer has more than 4300 digits when its absolute
    value is 10^4300 or more. *)
Definition int_max_str_digits : Z := 4300.

Definition int_str_bound : Z := 10 ^ int_max_str_digits.

Definition format_int (n : Z) : Exc string :=
  if Z.abs n <? int_str_bound
  then Ok (of_int n)
  else Raise (ValueError
                ("Exceeds the limit (4300 digits) for integer string conversion; "
                 ++ "use sys.set_int_max_str_digits() to increase the limit")).

End PyStr.

(** ** Python lists *)

Module PyList.

(** The index type of CPython, [Py_ssize_t], on a 64-bit platform. *)
Definition ssize_min : Z := - 2 ^ 63.
Definition ssize_max : Z := 2 ^ 63 - 1.

(** [l[i]]: the index is first converted to [Py_ssize_t], which fails
    for an integer outside its range; an index below zero then counts
    from the end. *)
Definition index {A : Type} (l : list A) (i : Z) : Exc A :=
  if (i <? ssize_min) || (ssize_max <? i)
  then Raise (IndexError "cannot fit 'int' into an index-sized integer")
  else
    let n := Z.of_nat (List.length l) in
    let j := if i <? 0 then i + n else i in
    if (0 <=? j) && (j <? n)
    then match nth_error l (Z.to_nat j) with
         | Some a => Ok a
         | None => Raise (IndexError "list index out of range")
         end
    else Raise (IndexError "list index out of range").

End PyList.

(** ** [clean_text] *)

(** The text as it stands after the lower-casing and the two [re.sub]
    calls, before the literal replacements. *)
Definition scrubbed (text : string) : string :=
  PyStr.collapse_spaces (PyStr.remove_unkept (PyStr.lower text)).

(** The four literal replacements, in the order of the source. *)
Definition abbreviate1 (t : string) : string := PyStr.replace "high school" "highschool" t.
Definition abbreviate2 (t : string) : string := PyStr.replace "national" "nat" t.
Definition abbreviate3 (t : string) : string := PyStr.replace "school" "sch" t.
Definition abbreviate4 (t : string) : string := PyStr.replace "highschool" "highsch" t.

(** [text] is a [str] or [None]; both [None] and the empty string are
    falsy. *)
Definition clean_text (text : option string) : string :=
  match text with
  | None => ""
  | Some "" => ""
  | Some text =>
      let text := scrubbed text in
      let text := abbreviate1 text in
      let text := abbreviate2 text in
      let text := abbreviate3 text in
      let text := abbreviate4 text in
      PyStr.strip text
  end.

(** ** The cluster table *)

Definition clusters : list string :=
  ["Inabanga  Schools"; "Clarin Schools"; "Tubigon  Schools"].

Definition colors : list string := ["#0088FE"; "#00C49F"; "#FFBB28"].

Definition get_cluster_name (cluster_id : Z) : Exc string :=
  if cluster_id <? Z.of_nat (List.length clusters)
  then PyList.index clusters cluster_id
  else digits <- PyStr.format_int cluster_id ;;
       Ok ("Cluster " ++ digits).

Definition get_cluster_color (cluster_id : Z) : Exc string :=
  PyList.index colors (cluster_id mod Z.of_nat (List.length colors)).

(** ** Python floats and [round] *)

Module PyFloat.

Definition prec : Z := 53.
Definition emax : Z := 1024.

(** The correctly rounded quotient of two integers, [b] positive and [a]
    not negative, with the sign [s]. *)
Definition nearest_quotient (s : bool) (a b : Z) : spec_float :=
  let '(mz, ez, lz) := SFdiv_core_binary prec emax a 0 b 0 in
  binary_round_aux prec emax s mz ez lz.

(** [float(n)]. *)
Definition of_int (n : Z) : Exc spec_float :=
  match binary_normalize prec emax n 0 false with
  | S754_infinity _ => Raise (OverflowError "int too large to convert to float")
  | x => Ok x
  end.

(** [a / b] on two integers: the true quotient, correctly rounded. *)
Definition int_true_div (a b : Z) : Exc spec_float :=
  if b =? 0 then Raise (ZeroDivisionError "division by zero")
  else
    match nearest_quotient (xorb (a <? 0) (b <? 0)) (Z.abs a) (Z.abs b) with
    | S754_infinity _ =>
        Raise (OverflowError "integer division result too large for a float")
    | x => Ok x
    end.

(** [x * n] for a float [x] and an integer [n]. *)
Definition mul_int (x : spec_float) (n : Z) : Exc spec_float :=
  y <- of_int n ;;
  Ok (SFmul prec emax x y).

(** [x - y] on floats. *)
Definition sub (x y : spec_float) : spec_float := SFsub prec emax x y.

(** The integer nearest to [num / den], ties to the even one
    ([0 <= num], [0 < den]). *)
Definition round_half_even (num den : Z) : Z :=
  let q := num / den in
  match (2 * (num mod den)) ?= den with
  | Lt => q
  | Gt => q + 1
  | Eq => if Z.even q then q else q + 1
  end.

(** [|x| * 10^ndigits] rounded to the nearest integer, ties to even, for a
    finite [x] of mantissa [m] and exponent [e]: the digits that the
    correctly rounded decimal conversion of [x] to [ndigits] places
    produces. *)
Definition scaled_digits (ndigits : Z) (m : positive) (e : Z) : Z :=
  if 0 <=? e then Zpos m * 2 ^ e * 10 ^ ndigits
  else round_half_even (Zpos m * 10 ^ ndigits) (2 ^ (- e)).

(** [round(x, ndigits)] for a float and [0 <= ndigits]: [x] is converted
    to the nearest decimal with [ndigits] places, and that decimal to the
    nearest float. *)
Definition round (x : spec_float) (ndigits : Z) : Exc spec_float :=
  match x with
  | S754_finite s m e =>
      match nearest_quotient s (scaled_digits ndigits m e) (10 ^ ndigits) with
      | S754_infinity _ =>
          Raise (OverflowError "rounded value too large to represent")
      | y => Ok y
      end
  | _ => Ok x
  end.

Definition pad3 (n : Z) : string :=
  (if n <? 10 then "00" else if n <? 100 then "0" else "") ++ PyStr.of_int n.

(** [format(x, '.3f')]. *)
Definition format_3f (x : spec_float) : string :=
  match x with
  | S754_zero s => (if s then "-" else "") ++ "0.000"
  | S754_infinity s => (if s then "-" else "") ++ "inf"
  | S754_nan => "nan"
  | S754_finite s m e =>
      let q := scaled_digits 3 m e in
      (if s then "-" else "") ++ PyStr.of_int (q / 1000) ++ "." ++ pad3 (q mod 1000)
  end.

(** The exact value of a finite float, as a rational. *)
Definition to_Q (x : spec_float) : Q :=
  match x with
  | S754_finite s m e => (inject_Z (cond_Zopp s (Zpos m)) * Qpower 2 e)%Q
  | _ => 0%Q
  end.

Definition is_finite (x : spec_float) : bool :=
  match x with
  | S754_zero _ | S754_finite _ _ _ => true
  | _ => false
  end.

End PyFloat.

(** ** Python values and dictionaries *)

(** The values that the responses are built from. A dictionary is an
    association list in insertion order, without repeated keys. *)
Inductive value : Type :=
| VBool (b : bool)
| VInt (n : Z)
| VFloat (x : spec_float)
| VStr (s : string)
| VList (l : list value)
| VDict (d : list (string * value)).

Definition dict : Type := list (string * value).

Module PyDict.

Section Assoc.
Context {K V : Type}.
Variable eqb : K -> K -> bool.

(** [d.get(k)]. *)
Fixpoint get (d : list (K * V)) (k : K) : option V :=
  match d with
  | [] => None
  | (k', v) :: d' => if eqb k k' then Some v else get d' k
  end.

(** [d[k] = v]: the entry of a key that [d] holds keeps its place, a new
    key goes to the end. *)
Fixpoint set (d : list (K * V)) (k : K) (v : V) : list (K * V) :=
  match d with
  | [] => [(k, v)]
  | (k', v') :: d' => if eqb k k' then (k', v) :: d' else (k', v') :: set d' k v
  end.

End Assoc.

Definition apostrophe : string := String (ascii_of_nat 39) EmptyString.

(** [d[k]] on a dictionary with string keys. *)
Definition item (d : dict) (k : string) : Exc value :=
  match get String.eqb d k with
  | Some v => Ok v
  | None => Raise (KeyError (apostrophe ++ k ++ apostrophe))
  end.

(** [d[k] += 1] on a dictionary from integers to integers; the
    [KeyError] is recorded with the digits of the key. *)
Definition increment (d : list (Z * Z)) (k : Z) : Exc (list (Z * Z)) :=
  match get Z.eqb d k with
  | Some n => Ok (set Z.eqb d k (n + 1))
  | None => Raise (KeyError (PyStr.of_int k))
  end.

(** [d.get(k, 0)] on a dictionary from integers to integers. *)
Definition get_or_zero (d : list (Z * Z)) (k : Z) : Z :=
  match get Z.eqb d k with
  | Some n => n
  | None => 0
  end.

(** The scan of [max(items, key=lambda x: x[1])]: a later item replaces
    the best one only when its key is strictly greater. *)
Fixpoint max_scan (best : Z * Z) (items : list (Z * Z)) : Z * Z :=
  match items with
  | [] => best
  | x :: items' => max_scan (if snd best <? snd x then x else best) items'
  end.

Definition max_by_value (items : list (Z * Z)) : Exc (Z * Z) :=
  match items with
  | [] => Raise (ValueError "max() arg is an empty sequence")
  | x :: items' => Ok (max_scan x items')
  end.

End PyDict.

(** Truth value of a Python value. *)
Definition truthy (v : value) : bool :=
  match v with
  | VBool b => b
  | VInt n => negb (n =? 0)
  | VFloat (S754_zero _) => false
  | VFloat _ => true
  | VStr s => negb (String.eqb s "")
  | VList l => match l with [] => false | _ => true end
  | VDict d => match d with [] => false | _ => true end
  end.

(** [round(v, ndigits)] for [0 <= ndigits]: an integer is returned as it
    is, a float is rounded. *)
Definition py_round (v : value) (ndigits : Z) : Exc value :=
  match v with
  | VInt n => Ok (VInt n)
  | VBool b => Ok (VInt (if b then 1 else 0))
  | VFloat x => y <- PyFloat.round x ndigits ;; Ok (VFloat y)
  | _ => Raise (TypeError "type doesn't define __round__ method")
  end.

(** ** The request types and the environment *)

Record School : Type := { name : string; municipality : string }.

Record BatchRequest : Type := { schools : list School }.

(** What the module-level [try] at start-up leaves behind: the flag, and
    the loaded artefacts, of which the code uses only the expression
    [int(model.predict(vectorizer.transform([cleaned]))[0])], given here
    as a function of [cleaned] that returns the integer or raises. *)
Record Env : Type := {
  MODEL_LOADED : bool;
  ml_cluster : string -> Exc Z
}.

(** ** Single prediction *)

Definition predict_single_ml (env : Env) (school : School) : Exc (option Z * string) :=
  try_except
    (let cleaned := clean_text (Some (name school ++ " | " ++ municipality school)) in
     cluster <- ml_cluster env cleaned ;;
     Ok (Some cluster, "ml"))
    (fun _ => Ok (None, "ml_failed")).

Definition predict_single_rule (school : School) : Z * string :=
  let text := PyStr.lower (name school ++ " " ++ municipality school) in
  if PyStr.contains "inabanga" text || PyStr.contains "dagohoy" text
  then (0, "rule_based")
  else if PyStr.contains "tubigon" text || PyStr.contains "cawayanan" text
          || PyStr.contains "cabulijan" text
  then (2, "rule_based")
  else (1, "rule_based").

(** The body of the [try] statement of [predict_single]; [now] is what
    [time.time()] returns during the call. *)
Definition predict_single_try (env : Env) (now : spec_float) (school : School)
    : Exc dict :=
  '(cluster, model_used) <-
    (if MODEL_LOADED env
     then
       '(cluster, model_used) <- predict_single_ml env school ;;
       match cluster with
       | None => Ok (predict_single_rule school)
       | Some cluster => Ok (cluster, model_used)
       end
     else Ok (predict_single_rule school)) ;;
  cluster_name <- get_cluster_name cluster ;;
  cluster_color <- get_cluster_color cluster ;;
  Ok [ ("school", VStr (PyStr.or_default (name school) "Unknown"));
       ("municipality", VStr (PyStr.or_default (municipality school) "Unknown"));
       ("cluster_id", VInt cluster);
       ("cluster_name", VStr cluster_name);
       ("cluster_color", VStr cluster_color);
       ("model_used", VStr model_used);
       ("success", VBool true);
       ("timestamp", VFloat now) ].

(** The body of its [except Exception as e] clause. *)
Definition predict_single_except (school : School) (e : exn) : Exc dict :=
  Ok [ ("school", VStr (PyStr.or_default (name school) "Unknown"));
       ("municipality", VStr (PyStr.or_default (municipality school) "Unknown"));
       ("error", VStr (exn_str e));
       ("success", VBool false);
       ("model_used", VStr "error") ].

Definition predict_single (env : Env) (now : spec_float) (school : School) : Exc dict :=
  try_except (predict_single_try env now school) (predict_single_except school).

(** ** Health check *)

Definition cluster_entry (id : Z) : Exc value :=
  cluster_name <- get_cluster_name id ;;
  cluster_color <- get_cluster_color id ;;
  Ok (VDict [ ("id", VInt id); ("name", VStr cluster_name);
              ("color", VStr cluster_color) ]).

(** [stamp] is what [time.strftime] returns. *)
Definition health_check (env : Env) (stamp : string) : Exc dict :=
  c0 <- cluster_entry 0 ;;
  c1 <- cluster_entry 1 ;;
  c2 <- cluster_entry 2 ;;
  Ok [ ("status", VStr (if MODEL_LOADED env then "healthy" else "degraded"));
       ("model_loaded", VBool (MODEL_LOADED env));
       ("timestamp", VStr stamp);
       ("clusters", VList [c0; c1; c2]) ].

(** ** Batch prediction *)

(** The readings of [time.time()] during one batch request: on entry,
    during the prediction of the school at each position, and after the
    loop. *)
Record Clock : Type := {
  at_start : spec_float;
  at_school : nat -> spec_float;
  at_end : spec_float
}.

(** The variables that the loop over [batch.schools] updates. *)
Record LoopState : Type := {
  results : list value;
  cluster_counts : list (Z * Z);
  successful : Z
}.

Definition initial_state : LoopState :=
  {| results := []; cluster_counts := [(0, 0); (1, 0); (2, 0)]; successful := 0 |}.

(** One iteration of [for school in batch.schools]. Under [cluster_id] a
    result of [predict_single] holds an integer, nothing else. *)
Definition loop_body (env : Env) (now : spec_float) (st : LoopState)
    (school : School) : Exc LoopState :=
  result <- predict_single env now school ;;
  let results := (results st ++ [VDict result])%list in
  ok <- PyDict.item result "success" ;;
  if truthy ok
  then
    id <- PyDict.item result "cluster_id" ;;
    match id with
    | VInt id =>
        counts <- PyDict.increment (cluster_counts st) id ;;
        Ok {| results := results; cluster_counts := counts;
              successful := successful st + 1 |}
    | _ => Raise (TypeError "cluster_id is not an integer")
    end
  else
    Ok {| results := results; cluster_counts := cluster_counts st;
          successful := successful st |}.

Fixpoint batch_loop (env : Env) (clock : Clock) (i : nat) (todo : list School)
    (st : LoopState) : Exc LoopState :=
  match todo with
  | [] => Ok st
  | school :: todo' =>
      st' <- loop_body env (at_school clock i) st school ;;
      batch_loop env clock (S i) todo' st'
  end.

(** [round(percentage, 1)] with
    [percentage = (count / successful * 100) if successful > 0 else 0]. *)
Definition rounded_percentage (count successful : Z) : Exc value :=
  percentage <-
    (if 0 <? successful
     then
       ratio <- PyFloat.int_true_div count successful ;;
       scaled <- PyFloat.mul_int ratio 100 ;;
       Ok (VFloat scaled)
     else Ok (VInt 0)) ;;
  py_round percentage 1.

(** The loop [for cluster_id in [0, 1, 2]] that fills
    [cluster_percentages]. *)
Fixpoint percentages_loop (ids : list Z) (counts : list (Z * Z)) (successful : Z)
    (cluster_percentages : list (Z * value)) : Exc (list (Z * value)) :=
  match ids with
  | [] => Ok cluster_percentages
  | cluster_id :: ids' =>
      let count := PyDict.get_or_zero counts cluster_id in
      p <- rounded_percentage count successful ;;
      percentages_loop ids' counts successful
        (PyDict.set Z.eqb cluster_percentages cluster_id p)
  end.

Definition percentage_or_zero (cluster_percentages : list (Z * value)) (k : Z) : value :=
  match PyDict.get Z.eqb cluster_percentages k with
  | Some v => v
  | None => VInt 0
  end.

Definition summary_entry (counts : list (Z * Z))
    (cluster_percentages : list (Z * value)) (id : Z) : Exc value :=
  cluster_name <- get_cluster_name id ;;
  cluster_color <- get_cluster_color id ;;
  Ok (VDict [ ("id", VInt id);
              ("name", VStr cluster_name);
              ("count", VInt (PyDict.get_or_zero counts id));
              ("percentage", percentage_or_zero cluster_percentages id);
              ("color", VStr cluster_color) ]).

Definition get_cluster_batch (env : Env) (clock : Clock) (batch : BatchRequest)
    : Exc dict :=
  let start_time := at_start clock in
  match schools batch with
  | [] => Ok [ ("error", VStr "No schools provided"); ("success", VBool false) ]
  | _ =>
      st <- batch_loop env clock O (schools batch) initial_state ;;
      let results := results st in
      let cluster_counts := cluster_counts st in
      let successful := successful st in
      (* [len] of a list fits the index type, so the f-string below
         converts [total] to text without meeting the limit on digits *)
      let total := Z.of_nat (List.length results) in
      let processing_time := PyFloat.sub (at_end clock) start_time in
      cluster_percentages <- percentages_loop [0; 1; 2] cluster_counts successful [] ;;
      dominant_cluster <-
        (match cluster_counts with
         | [] => Ok 1
         | _ => best <- PyDict.max_by_value cluster_counts ;; Ok (fst best)
         end) ;;
      seconds <- py_round (VFloat processing_time) 3 ;;
      c0 <- summary_entry cluster_counts cluster_percentages 0 ;;
      c1 <- summary_entry cluster_counts cluster_percentages 1 ;;
      c2 <- summary_entry cluster_counts cluster_percentages 2 ;;
      dominant_cluster_name <- get_cluster_name dominant_cluster ;;
      Ok [ ("results", VList results);
           ("summary", VDict [
              ("total_schools", VInt total);
              ("successful_predictions", VInt successful);
              ("failed_predictions", VInt (total - successful));
              ("processing_time_seconds", seconds);
              ("clusters", VList [c0; c1; c2]);
              ("dominant_cluster", VInt dominant_cluster);
              ("dominant_cluster_name", VStr dominant_cluster_name);
              ("model_used", VStr (if MODEL_LOADED env then "ml" else "rule_based"));
              ("performance",
               VStr (PyFloat.format_3f processing_time ++ "s for "
                     ++ PyStr.of_int total ++ " schools")) ]) ]
  end.

(** ** Vocabulary of the statements *)

(** [k] occurs in [t] as a substring. *)
Definition occurs (k t : string) : Prop := exists pre post, t = pre ++ k ++ post.

(** No character of [p] is [a]. *)
Fixpoint avoids (a : ascii) (p : string) : bool :=
  match p with
  | EmptyString => true
  | String c p' => (negb (Ascii.eqb c a) && avoids a p')%bool
  end.

(** The value under the key [k] of a response, if the key is there. *)
Definition field (d : dict) (k : string) : option value := PyDict.get String.eqb d k.

(** The text that [predict_single_ml] hands to the vectorizer. *)
Definition cleaned_input (school : School) : string :=
  clean_text (Some (name school ++ " | " ++ municipality school)).

(** The entries of the cluster table, by id. *)
Definition table_name (id : Z) : string :=
  if id =? 0 then "Inabanga  Schools"
  else if id =? 1 then "Clarin Schools"
  else "Tubigon  Schools".

Definition table_color (id : Z) : string :=
  if id =? 0 then "#0088FE"
  else if id =? 1 then "#00C49F"
  else "#FFBB28".

(** A result of the batch that is a success, and one that is a success
    with the cluster [k]. *)
Definition is_success (v : value) : bool :=
  match v with
  | VDict d =>
      match field d "success" with
      | Some (VBool true) => true
      | _ => false
      end
  | _ => false
  end.

Definition in_cluster (k : Z) (v : value) : bool :=
  match v with
  | VDict d =>
      match field d "success", field d "cluster_id" with
      | Some (VBool true), Some (VInt c) => c =? k
      | _, _ => false
      end
  | _ => false
  end.

Definition is_failure (v : value) : bool := negb (is_success v).

(** How many elements of [l] satisfy [p]. *)
Definition count_of (p : value -> bool) (l : list value) : Z :=
  Z.of_nat (List.length (List.filter p l)).

(** The value under [k] in the summary of a batch response. *)
Definition summary_field (d : dict) (k : string) : option value :=
  match field d "summary" with
  | Some (VDict summary) => field summary k
  | _ => None
  end.

(** The value under [k] in the entry at position [i] of the summary's
    [clusters]. *)
Definition cluster_stat (d : dict) (i : nat) (k : string) : option value :=
  match summary_field d "clusters" with
  | Some (VList l) =>
      match nth_error l i with
      | Some (VDict e) => field e k
      | _ => None
      end
  | _ => None
  end.

(** The loop variables agree with the results gathered so far. *)
Definition tallied (st : LoopState) : Prop :=
  cluster_counts st =
    [ (0, count_of (in_cluster 0) (results st));
      (1, count_of (in_cluster 1) (results st));
      (2, count_of (in_cluster 2) (results st)) ]
  /\ successful st = count_of is_success (results st)
  /\ successful st = count_of (in_cluster 0) (results st)
                     + count_of (in_cluster 1) (results st)
                     + count_of (in_cluster 2) (results st).

(** [v] is the response of [predict_single] for [school] at some reading
    of the clock. *)
Definition response_for (env : Env) (school : School) (v : value) : Prop :=
  exists now d, predict_single env now school = Ok d /\ v = VDict d.

(** A percentage of the summary lies between 0 and 100. *)
Definition percentage_in_range (v : value) : Prop :=
  match v with
  | VInt n => 0 <= n <= 100
  | VFloat x =>
      PyFloat.is_finite x = true
      /\ (0 <= PyFloat.to_Q x)%Q /\ (PyFloat.to_Q x <= 100)%Q
  | _ => False
  end.

(** The formula for a percentage in the specification's words:
    [round(100 * count / successful_count, 1)], and 0 when there is no
    success. *)
Definition spec_percentage (count successful : Z) : Exc value :=
  if 0 <? successful
  then
    ratio <- PyFloat.int_true_div (100 * count) successful ;;
    py_round (VFloat ratio) 1
  else Ok (VInt 0).

(** The least integer that bounds what a shift record stands for: its
    mantissa, and one more when a bit was shifted out. *)
Definition ceiling_of (mrs : shr_record) : Z :=
  shr_m mrs + (if (shr_r mrs || shr_s mrs)%bool then 1 else 0).

Definition ceiling_at (m : Z) (l : location) : Z :=
  m + match l with loc_Exact => 0 | loc_Inexact _ => 1 end.

(** A float that is zero or positive and at most [K * 2^k]. *)
Definition at_most (K k : Z) (x : spec_float) : Prop :=
  match x with
  | S754_zero false => True
  | S754_finite false m e =>
      Zpos m * 2 ^ (e - Z.min e k) <= K * 2 ^ (k - Z.min e k)
  | _ => False
  end.

(** The check of [percentage_in_range] on a float, as a boolean. *)
Definition float_in_range (x : spec_float) : bool :=
  (PyFloat.is_finite x && Qle_bool 0 (PyFloat.to_Q x)
   && Qle_bool (PyFloat.to_Q x) 100)%bool.

Definition rounds_in_range (q : Z) : bool :=
  match PyFloat.nearest_quotient false q 10 with
  | S754_infinity _ => false
  | x => float_in_range x
  end.

(** The model, when it is loaded, yields ids of the table only. *)
Definition yields_table_ids (env : Env) : Prop :=
  MODEL_LOADED env = true ->
  forall text c, ml_cluster env text = Ok c -> 0 <= c <= 2.

(** The time that the batch took is a binary64 number. *)
Definition elapsed_is_binary64 (clock : Clock) : Prop :=
  valid_binary PyFloat.prec PyFloat.emax
    (PyFloat.sub (at_end clock) (at_start clock)) = true.

(** Sample inputs: an environment whose model yields the id [k] for every
    text, one whose model failed to load, a school and a clock. *)
Definition env_yielding (k : Z) : Env :=
  {| MODEL_LOADED := true; ml_cluster := fun _ => Ok k |}.

Definition env_without_model : Env :=
  {| MODEL_LOADED := false;
     ml_cluster := fun _ => Raise (ExternalError "model is not loaded") |}.

Definition test_school : School :=
  {| name := "TEST SCHOOL"; municipality := "UNKNOWN LOCATION" |}.

Definition inabanga_school : School :=
  {| name := "INABANGA HIGH SCHOOL"; municipality := "INABANGA, BOHOL" |}.

Definition tubigon_school : School :=
  {| name := "TUBIGON WEST CENTRAL HIGH SCHOOL"; municipality := "TUBIGON, BOHOL" |}.

(** Two schools of cluster 0 and two of cluster 1. *)
Definition tie_batch : BatchRequest :=
  {| schools := [inabanga_school; test_school; inabanga_school; test_school] |}.

(** Eighty schools, twenty-three of them of cluster 0. *)
Definition eighty_batch : BatchRequest :=
  {| schools := (repeat inabanga_school 23 ++ repeat test_school 57)%list |}.

Definition still_clock : Clock :=
  {| at_start := S754_zero false;
     at_school := fun _ => S754_zero false;
     at_end := S754_zero false |}.

(** ** Start-up, and the endpoints that wrap the pipeline *)

(** What the module-level [try] statement leaves in the globals [model],
    [vectorizer] and [MODEL_LOADED]; a global that was never assigned is
    [None]. *)
Record Startup (M V : Type) : Type := {
  model_global : option M;
  vectorizer_global : option V;
  flag : bool
}.

Arguments model_global {M V} s.
Arguments vectorizer_global {M V} s.
Arguments flag {M V} s.

(** The [try] statement that loads the artefacts. [load_model] and
    [load_vectorizer] are the two calls of [joblib.load];
    [describe_model] is the evaluation of [model.n_clusters] in the second
    [print], [describe_vectorizer] that of
    [len(vectorizer.get_feature_names_out())] in the third. The statements
    run in the order of the source; the first one that raises hands over
    to the [except] clause, which sets the flag to [False] and leaves the
    globals assigned so far. What is printed is not modelled. *)
Definition startup {M V : Type} (load_model : Exc M) (load_vectorizer : Exc V)
    (describe_model : M -> Exc Z) (describe_vectorizer : V -> Exc Z)
    : Startup M V :=
  match load_model with
  | Raise _ =>
      {| model_global := None; vectorizer_global := None; flag := false |}
  | Ok m =>
      match load_vectorizer with
      | Raise _ =>
          {| model_global := Some m; vectorizer_global := None; flag := false |}
      | Ok v =>
          match (_ <- describe_model m ;; describe_vectorizer v) with
          | Raise _ =>
              {| model_global := Some m; vectorizer_global := Some v;
                 flag := false |}
          | Ok _ =>
              {| model_global := Some m; vectorizer_global := Some v;
                 flag := true |}
          end
      end
  end.

(** The environment of the requests after start-up. [predict m v cleaned]
    is [int(model.predict(vectorizer.transform([cleaned]))[0])] for the
    loaded artefacts; with a global that was never assigned, evaluating
    that expression raises (a [NameError]). *)
Definition env_after {M V : Type} (predict : M -> V -> string -> Exc Z)
    (s : Startup M V) : Env :=
  {| MODEL_LOADED := flag s;
     ml_cluster := fun cleaned =>
       match model_global s, vectorizer_global s with
       | Some m, Some v => predict m v cleaned
       | _, _ => Raise (ExternalError "name is not defined")
       end |}.

(** [POST /cluster]. *)
Definition get_cluster (env : Env) (now : spec_float) (school : School) : Exc dict :=
  result <- predict_single env now school ;;
  Ok result.

(** The sample data of [GET /test]. *)
Definition test_schools : list School :=
  [ {| name := "CLARIN NATIONAL SCHOOL OF FISHERIES"; municipality := "CLARIN, BOHOL" |};
    {| name := "TUBIGON WEST CENTRAL HIGH SCHOOL"; municipality := "TUBIGON, BOHOL" |};
    {| name := "INABANGA HIGH SCHOOL"; municipality := "INABANGA, BOHOL" |};
    {| name := "TEST SCHOOL"; municipality := "UNKNOWN LOCATION" |} ].

(** The loop of [test_endpoint]; [now i] is the reading of the clock
    during the prediction at position [i]. *)
Fixpoint test_loop (env : Env) (now : nat -> spec_float) (i : nat)
    (todo : list School) (results : list value) : Exc (list value) :=
  match todo with
  | [] => Ok results
  | school :: todo' =>
      result <- predict_single env (now i) school ;;
      test_loop env now (S i) todo' (results ++ [VDict result])%list
  end.

(** [GET /test]. *)
Definition test_endpoint (env : Env) (now : nat -> spec_float) : Exc dict :=
  results <- test_loop env now O test_schools [] ;;
  Ok [ ("test_results", VList results);
       ("model_status",
        VStr (if MODEL_LOADED env then "loaded" else "rule_based_fallback"));
       ("message", VStr "Test completed successfully") ].

(** ** Vocabulary of the further statements *)

(** The cluster and the tag that the first statement of the [try] body of
    [predict_single] leaves in [cluster] and [model_used]. *)
Definition chosen (env : Env) (school : School) : Z * string :=
  if MODEL_LOADED env
  then match ml_cluster env (cleaned_input school) with
       | Ok c => (c, "ml")
       | Raise _ => predict_single_rule school
       end
  else predict_single_rule school.

(** The model yields for [school] an id that has a name but no entry in
    [cluster_counts]: the ids for which [get_cluster_name] returns are
    those from -3 on that have at most 4300 digits. *)
Definition stray (env : Env) (school : School) (c : Z) : Prop :=
  MODEL_LOADED env = true
  /\ ml_cluster env (cleaned_input school) = Ok c
  /\ -3 <= c < PyStr.int_str_bound /\ ~ (0 <= c <= 2).

Definition no_stray (env : Env) (school : School) : Prop :=
  forall c, ~ stray env school c.

(** Every character of [s] satisfies [p]. *)
Fixpoint all_chars (p : ascii -> bool) (s : string) : bool :=
  match s with
  | EmptyString => true
  | String c s' => (p c && all_chars p s')%bool
  end.

(** The characters that [clean_text] lets through: kept by the first
    [re.sub], not changed by [str.lower], and no white space but the
    space itself. *)
Definition clean_char (c : ascii) : bool :=
  (PyStr.is_kept c && negb (PyStr.is_upper c)
   && (negb (PyStr.is_space c) || Ascii.eqb c " "))%bool.

(** The first and the last character of a string. *)
Definition first_char (s : string) : option ascii :=
  match s with
  | EmptyString => None
  | String c _ => Some c
  end.

Fixpoint last_char (s : string) : option ascii :=
  match s with
  | EmptyString => None
  | String c EmptyString => Some c
  | String _ s' => last_char s'
  end.

Definition not_space (c : option ascii) : Prop :=
  match c with
  | None => True
  | Some c => PyStr.is_space c = false
  end.

(** The record with both fields lower-cased. *)
Definition lower_school (school : School) : School :=
  {| name := PyStr.lower (name school);
     municipality := PyStr.lower (municipality school) |}.

(** [k] occurs in the lower-cased name or in the lower-cased municipality
    of [school]. *)
Definition in_a_field (k : string) (school : School) : Prop :=
  occurs k (PyStr.lower (name school))
  \/ occurs k (PyStr.lower (municipality school)).

(** An environment whose model is loaded and fails on every text. *)
Definition env_failing : Env :=
  {| MODEL_LOADED := true;
     ml_cluster := fun _ => Raise (ExternalError "model failed") |}.

(** ** Strings: prefixes, occurrences and [replace] *)

Section StringFacts.
Import PyStr.

Lemma prefix_cons a p b s :
  prefix (String a p) (String b s) = (Ascii.eqb a b && prefix p s)%bool.
Proof.
  simpl. destruct (ascii_dec a b) as [->|n].
  - now rewrite Ascii.eqb_refl.
  - apply Ascii.eqb_neq in n. now rewrite n.
Qed.

Lemma prefix_empty s : prefix "" s = true.
Proof. now destruct s. Qed.

Lemma prefix_app p s : prefix p s = true <-> exists post, s = p ++ post.
Proof.
  revert s. induction p as [|a p IH]; intros s.
  - split; [exists s; reflexivity | destruct s; reflexivity].
  - destruct s as [|b s].
    + split; [discriminate | intros [post H]; discriminate].
    + rewrite prefix_cons, andb_true_iff, Ascii.eqb_eq, IH. split.
      * intros [-> [post ->]]. now exists post.
      * intros [post H]. injection H as -> ->. split; [reflexivity | now exists post].
Qed.

Lemma contains_occurs k t : contains k t = true <-> occurs k t.
Proof.
  induction t as [|c t IH].
  - cbn [contains]. rewrite orb_false_r, prefix_app. split.
    + intros [post H]. exists "", post. exact H.
    + intros [pre [post H]]. destruct pre; [now exists post | discriminate].
  - cbn [contains]. rewrite orb_true_iff, prefix_app, IH. split.
    + intros [[post H] | [pre [post H]]].
      * exists "", post. exact H.
      * exists (String c pre), post. simpl. now rewrite H.
    + intros [pre [post H]]. destruct pre as [|c' pre].
      * left. now exists post.
      * right. injection H as -> ->. now exists pre, post.
Qed.

Lemma contains_cons k c s : contains k s = true -> contains k (String c s) = true.
Proof. intros H. cbn [contains]. rewrite H. apply orb_true_r. Qed.

Lemma contains_prefix k s : prefix k s = true -> contains k s = true.
Proof. intros H. destruct s; cbn [contains]; rewrite H; reflexivity. Qed.

Lemma contains_app k p s : contains k s = true -> contains k (p ++ s) = true.
Proof. induction p; intros H; [exact H | simpl append; apply contains_cons; auto]. Qed.

Lemma append_assoc (a b c : string) : (a ++ b) ++ c = a ++ b ++ c.
Proof. induction a as [|x a IH]; [reflexivity | simpl; now rewrite IH]. Qed.

Lemma contains_longer p k s : contains (p ++ k) s = true -> contains k s = true.
Proof.
  rewrite !contains_occurs. intros [pre [post H]].
  exists (pre ++ p), post. rewrite H. now rewrite !append_assoc.
Qed.

Lemma length_drop_le k s : (String.length (drop k s) <= String.length s)%nat.
Proof.
  revert s; induction k; intros [|c s]; simpl; try lia.
  specialize (IHk s). lia.
Qed.

Lemma contains_drop p k s : contains p (drop k s) = true -> contains p s = true.
Proof.
  revert s; induction k; intros [|c s] H; simpl in *; auto.
  apply contains_cons. apply IHk. exact H.
Qed.

(** The scan with characters left to skip is the scan of what follows
    them. *)
Lemma replace_scan_skip old new k s :
  replace_scan old new k s = replace_scan old new 0 (drop k s).
Proof.
  revert k. induction s as [|c s IH]; intros [|k]; try reflexivity.
  cbn [replace_scan drop]. apply IH.
Qed.

Lemma replace_scan_cons old new c s :
  replace_scan old new 0 (String c s) =
  if prefix old (String c s)
  then new ++ replace_scan old new 0 (drop (String.length old - 1) s)
  else String c (replace_scan old new 0 s).
Proof.
  cbn [replace_scan]. destruct (prefix old (String c s)); [|reflexivity].
  now rewrite replace_scan_skip.
Qed.

(** A first character of the output that is not the first character of
    [new] was copied from the input. *)
Lemma replace_scan_head old n0 new' x w u :
  replace_scan old (String n0 new') 0 u = String x w -> x <> n0 ->
  exists u', u = String x u' /\ w = replace_scan old (String n0 new') 0 u'
             /\ prefix old u = false.
Proof.
  intros H Hx. destruct u as [|c u]; [discriminate|].
  rewrite replace_scan_cons in H.
  destruct (prefix old (String c u)) eqn:Hp.
  - simpl in H. injection H as H _. congruence.
  - injection H as -> <-. now exists u.
Qed.

Lemma prefix_before_replace old n0 new' p :
  avoids n0 p = true ->
  forall u, prefix p (replace_scan old (String n0 new') 0 u) = true ->
            prefix p u = true.
Proof.
  induction p as [|x p IH]; intros Hp u H.
  - apply prefix_empty.
  - cbn [avoids] in Hp. apply andb_true_iff in Hp as [Hx Hp].
    apply negb_true_iff, Ascii.eqb_neq in Hx.
    destruct (replace_scan old (String n0 new') 0 u) as [|y w] eqn:E;
      [destruct p; discriminate|].
    rewrite prefix_cons in H. apply andb_true_iff in H as [Hxy H].
    apply Ascii.eqb_eq in Hxy. subst y.
    destruct (replace_scan_head _ _ _ _ _ _ E Hx) as [u' [-> [-> _]]].
    rewrite prefix_cons, Ascii.eqb_refl. simpl. now apply IH.
Qed.

Lemma replace_scan_absent old new s :
  contains old s = false -> replace_scan old new 0 s = s.
Proof.
  induction s as [|c s IH]; intros H; [reflexivity|].
  cbn [contains] in H. apply orb_false_iff in H as [Hp H].
  rewrite replace_scan_cons, Hp. f_equal. now apply IH.
Qed.

(** After [school] has been replaced by [sch], the word is there again
    only where the input had it followed by [ool]. *)
Lemma school_after_abbreviate3 n : forall t, (String.length t <= n)%nat ->
  contains "school" (abbreviate3 t) = true -> contains "schoolool" t = true.
Proof.
  unfold abbreviate3, replace.
  induction n as [|n IH]; intros t Hlen H.
  - destruct t; [discriminate | simpl in Hlen; lia].
  - destruct t as [|c t]; [discriminate|].
    rewrite replace_scan_cons in H.
    destruct (prefix "school" (String c t)) eqn:Hp.
    + change (String.length "school" - 1)%nat with 5%nat in H.
      apply prefix_app in Hp as [post Hpost]. injection Hpost as -> ->.
      change (drop 5 ("chool" ++ post)) with post in H.
      assert (Hrest : prefix "ool" (replace_scan "school" "sch" 0 post) = true
                      \/ contains "school" (replace_scan "school" "sch" 0 post) = true).
      { cbn [append contains] in H.
        repeat rewrite prefix_cons in H. simpl in H.
        apply orb_true_iff in H. exact H. }
      destruct Hrest as [Hool | Hin].
      * apply (prefix_before_replace "school" "s" "ch" "ool" eq_refl) in Hool.
        apply prefix_app in Hool as [post' ->].
        apply contains_prefix. apply prefix_app. now exists post'.
      * apply (contains_app "schoolool" "school"). apply IH; [|exact Hin].
        simpl in Hlen. lia.
    + cbn [contains] in H. apply orb_true_iff in H as [H|H].
      * rewrite prefix_cons in H. apply andb_true_iff in H as [Hc H].
        apply Ascii.eqb_eq in Hc. subst c.
        apply (prefix_before_replace "school" "s" "ch" "chool" eq_refl) in H.
        rewrite prefix_cons, H in Hp. discriminate.
      * apply contains_cons. apply IH; [simpl in Hlen; lia | exact H].
Qed.

(** Replacing [national] by [nat] brings no [schoolool] into a text. *)
Lemma schoolool_after_abbreviate2 n : forall t, (String.length t <= n)%nat ->
  contains "schoolool" (abbreviate2 t) = true -> contains "schoolool" t = true.
Proof.
  unfold abbreviate2, replace.
  induction n as [|n IH]; intros t Hlen H.
  - destruct t; [discriminate | simpl in Hlen; lia].
  - destruct t as [|c t]; [discriminate|].
    rewrite replace_scan_cons in H.
    destruct (prefix "national" (String c t)) eqn:Hp.
    + change (String.length "national" - 1)%nat with 7%nat in H.
      assert (Hin : contains "schoolool" (replace_scan "national" "nat" 0 (drop 7 t)) = true).
      { cbn [append contains] in H.
        repeat rewrite prefix_cons in H. simpl in H. exact H. }
      apply contains_cons. apply (contains_drop _ 7). apply IH; [|exact Hin].
      pose proof (length_drop_le 7 t). simpl in Hlen. lia.
    + cbn [contains] in H. apply orb_true_iff in H as [H|H].
      * rewrite prefix_cons in H. apply andb_true_iff in H as [Hc H].
        apply Ascii.eqb_eq in Hc. subst c.
        apply (prefix_before_replace "national" "n" "at" "choolool" eq_refl) in H.
        apply contains_prefix. rewrite prefix_cons, H. reflexivity.
      * apply contains_cons. apply IH; [simpl in Hlen; lia | exact H].
Qed.

End StringFacts.

(** ** [clean_text] *)

(** C5. The worked examples of the normalizer: [HIGH SCHOOL] becomes
    [highsch], and both the empty string and [None] become the empty
    string. [clean_text] is a function into [string]: on no input does it
    raise. *)
Theorem clean_text_examples :
  clean_text (Some "HIGH SCHOOL") = "highsch"
  /\ clean_text (Some "") = ""
  /\ clean_text None = "".
Proof. repeat split. Qed.

(** [clean_text] in terms of the stages it is made of. *)
Lemma clean_text_stages text :
  clean_text (Some text) =
  PyStr.strip (abbreviate4 (abbreviate3 (abbreviate2 (abbreviate1 (scrubbed text))))).
Proof. destruct text; reflexivity. Qed.

(** C6, as the specification states it, fails: on [highschoolool] the
    first replacement finds nothing, the third one turns the text into
    [highschool], and the fourth one then fires. *)
Lemma abbreviate4_fires_alone :
  PyStr.contains "high school" (scrubbed "highschoolool") = false
  /\ abbreviate1 (scrubbed "highschoolool") = scrubbed "highschoolool"
  /\ abbreviate3 (abbreviate2 (abbreviate1 (scrubbed "highschoolool"))) = "highschool"
  /\ abbreviate4 (abbreviate3 (abbreviate2 (abbreviate1 (scrubbed "highschoolool"))))
     <> abbreviate3 (abbreviate2 (abbreviate1 (scrubbed "highschoolool")))
  /\ clean_text (Some "highschoolool") = "highsch".
Proof. repeat split. vm_compute. discriminate. Qed.

(** C6, amended. When the first replacement finds nothing and the text
    that reaches the replacements holds no [schoolool], the fourth
    replacement changes nothing, and [clean_text] is the first three
    stages followed by [strip]. *)
Theorem abbreviate4_noop (text : string) :
  PyStr.contains "high school" (scrubbed text) = false ->
  PyStr.contains "schoolool" (scrubbed text) = false ->
  abbreviate4 (abbreviate3 (abbreviate2 (abbreviate1 (scrubbed text))))
  = abbreviate3 (abbreviate2 (abbreviate1 (scrubbed text)))
  /\ clean_text (Some text)
     = PyStr.strip (abbreviate3 (abbreviate2 (scrubbed text))).
Proof.
  intros Hhigh Hool.
  assert (H1 : abbreviate1 (scrubbed text) = scrubbed text)
    by (apply replace_scan_absent; exact Hhigh).
  assert (H4 : abbreviate4 (abbreviate3 (abbreviate2 (scrubbed text)))
               = abbreviate3 (abbreviate2 (scrubbed text))).
  { apply replace_scan_absent.
    destruct (PyStr.contains "highschool" _) eqn:E; [|reflexivity].
    apply (contains_longer "high" "school") in E.
    apply (school_after_abbreviate3 _ _ (le_n _)) in E.
    apply (schoolool_after_abbreviate2 _ _ (le_n _)) in E.
    congruence. }
  rewrite clean_text_stages, H1, H4. split; reflexivity.
Qed.

Lemma abbreviate4_noop_witness :
  PyStr.contains "high school" (scrubbed "CLARIN NATIONAL SCHOOL OF FISHERIES") = false
  /\ PyStr.contains "schoolool" (scrubbed "CLARIN NATIONAL SCHOOL OF FISHERIES") = false
  /\ clean_text (Some "CLARIN NATIONAL SCHOOL OF FISHERIES")
     = PyStr.strip (abbreviate3 (abbreviate2 (scrubbed "CLARIN NATIONAL SCHOOL OF FISHERIES"))).
Proof.
  split; [reflexivity | split; [reflexivity|]].
  apply (abbreviate4_noop "CLARIN NATIONAL SCHOOL OF FISHERIES"); reflexivity.
Defined.

(** ** The rule-based classifier *)

(** C4. [predict_single_rule] is a function (it returns for every record
    and raises nothing), its tag is [rule_based], and its cluster follows
    the keywords found in the lower-cased, space-joined name and
    municipality: 0 when [inabanga] or [dagohoy] occurs, whatever else
    does; otherwise 2 when [tubigon], [cawayanan] or [cabulijan] occurs;
    otherwise 1. *)
Theorem predict_single_rule_priority (school : School) :
  let text := PyStr.lower (name school ++ " " ++ municipality school) in
  let first := occurs "inabanga" text \/ occurs "dagohoy" text in
  let second := occurs "tubigon" text \/ occurs "cawayanan" text
                \/ occurs "cabulijan" text in
  exists cluster,
    predict_single_rule school = (cluster, "rule_based")
    /\ (first -> cluster = 0)
    /\ (~ first -> second -> cluster = 2)
    /\ (~ first -> ~ second -> cluster = 1)
    /\ (first -> second -> cluster = 0).
Proof.
  intros text first second. subst first second.
  assert (D : forall k, {occurs k text /\ PyStr.contains k text = true}
                        + {~ occurs k text /\ PyStr.contains k text = false}).
  { intros k. destruct (PyStr.contains k text) eqn:E.
    - left. split; [now apply contains_occurs | reflexivity].
    - right. split; [rewrite <- contains_occurs; congruence | reflexivity]. }
  unfold predict_single_rule. fold text.
  destruct (D "inabanga") as [[? ->]|[? ->]], (D "dagohoy") as [[? ->]|[? ->]],
    (D "tubigon") as [[? ->]|[? ->]], (D "cawayanan") as [[? ->]|[? ->]],
    (D "cabulijan") as [[? ->]|[? ->]]; cbn [orb];
    eexists; (split; [reflexivity|]); intuition congruence.
Qed.

(** The three records of the test fixture that the rules tell apart. *)
Example predict_single_rule_examples :
  predict_single_rule inabanga_school = (0, "rule_based")
  /\ predict_single_rule tubigon_school = (2, "rule_based")
  /\ predict_single_rule test_school = (1, "rule_based").
Proof. repeat split. Qed.

(** ** The lookup helpers *)

Lemma get_cluster_color_mod (cluster_id : Z) :
  get_cluster_color cluster_id = Ok (table_color (cluster_id mod 3)).
Proof.
  unfold get_cluster_color. change (Z.of_nat (List.length colors)) with 3.
  pose proof (Z.mod_pos_bound cluster_id 3 eq_refl) as Hm.
  assert (H : cluster_id mod 3 = 0 \/ cluster_id mod 3 = 1 \/ cluster_id mod 3 = 2) by lia.
  destruct H as [-> | [-> | ->]]; reflexivity.
Qed.

Lemma get_cluster_name_table (cluster_id : Z) :
  0 <= cluster_id <= 2 -> get_cluster_name cluster_id = Ok (table_name cluster_id).
Proof.
  intros H.
  assert (H' : cluster_id = 0 \/ cluster_id = 1 \/ cluster_id = 2) by lia.
  destruct H' as [-> | [-> | ->]]; reflexivity.
Qed.

(** The limit of the conversion to text is far beyond the index type. *)
Lemma int_str_bound_large : PyList.ssize_max < PyStr.int_str_bound.
Proof. reflexivity. Qed.

Lemma ssize_min_value : PyList.ssize_min = -9223372036854775808.
Proof. reflexivity. Qed.

Lemma ssize_max_value : PyList.ssize_max = 9223372036854775807.
Proof. reflexivity. Qed.

Lemma format_int_returns (n : Z) :
  Z.abs n < PyStr.int_str_bound -> PyStr.format_int n = Ok (PyStr.of_int n).
Proof.
  intros H. unfold PyStr.format_int.
  destruct (Z.abs n <? PyStr.int_str_bound) eqn:E; [reflexivity | lia].
Qed.

Lemma format_int_refused (n : Z) :
  PyStr.int_str_bound <= Z.abs n ->
  PyStr.format_int n
  = Raise (ValueError
             ("Exceeds the limit (4300 digits) for integer string conversion; "
              ++ "use sys.set_int_max_str_digits() to increase the limit")).
Proof.
  intros H. unfold PyStr.format_int.
  destruct (Z.abs n <? PyStr.int_str_bound) eqn:E; [lia | reflexivity].
Qed.

Lemma get_cluster_name_beyond (cluster_id : Z) :
  3 <= cluster_id < PyStr.int_str_bound ->
  get_cluster_name cluster_id = Ok ("Cluster " ++ PyStr.of_int cluster_id).
Proof.
  intros H. unfold get_cluster_name. change (Z.of_nat (List.length clusters)) with 3.
  destruct (cluster_id <? 3) eqn:E; [lia|].
  rewrite format_int_returns by lia. reflexivity.
Qed.

Lemma get_cluster_name_unprintable (cluster_id : Z) :
  PyStr.int_str_bound <= cluster_id ->
  get_cluster_name cluster_id
  = Raise (ValueError
             ("Exceeds the limit (4300 digits) for integer string conversion; "
              ++ "use sys.set_int_max_str_digits() to increase the limit")).
Proof.
  intros H. pose proof int_str_bound_large as Hb. rewrite ssize_max_value in Hb.
  unfold get_cluster_name. change (Z.of_nat (List.length clusters)) with 3.
  destruct (cluster_id <? 3) eqn:E; [lia|].
  rewrite format_int_refused by lia. reflexivity.
Qed.

Lemma get_cluster_name_wraps (cluster_id : Z) :
  -3 <= cluster_id < 0 ->
  get_cluster_name cluster_id = Ok (table_name (cluster_id + 3)).
Proof.
  intros H.
  assert (H' : cluster_id = -3 \/ cluster_id = -2 \/ cluster_id = -1) by lia.
  destruct H' as [-> | [-> | ->]]; reflexivity.
Qed.

Lemma get_cluster_name_below (cluster_id : Z) :
  PyList.ssize_min <= cluster_id < -3 ->
  get_cluster_name cluster_id = Raise (IndexError "list index out of range").
Proof.
  intros H. pose proof ssize_max_value as Hmax.
  unfold get_cluster_name, PyList.index.
  change (Z.of_nat (List.length clusters)) with 3.
  destruct (cluster_id <? 3) eqn:E1; [|lia].
  destruct (cluster_id <? PyList.ssize_min) eqn:E4; [lia|].
  destruct (PyList.ssize_max <? cluster_id) eqn:E5; [lia|].
  cbn [orb].
  destruct (cluster_id <? 0) eqn:E2; [|lia].
  destruct (0 <=? cluster_id + 3) eqn:E3; [lia | reflexivity].
Qed.

Lemma get_cluster_name_unindexable (cluster_id : Z) :
  cluster_id < PyList.ssize_min ->
  get_cluster_name cluster_id
  = Raise (IndexError "cannot fit 'int' into an index-sized integer").
Proof.
  intros H. pose proof ssize_min_value as Hmin.
  unfold get_cluster_name, PyList.index.
  change (Z.of_nat (List.length clusters)) with 3.
  destruct (cluster_id <? 3) eqn:E1; [|lia].
  destruct (cluster_id <? PyList.ssize_min) eqn:E4; [reflexivity | lia].
Qed.

Lemma table_name_nonempty (id : Z) : table_name id <> "".
Proof. unfold table_name. destruct (id =? 0); [|destruct (id =? 1)]; discriminate. Qed.


(** The name found for an id from -3 on whose digits can be written is
    not empty. *)
Lemma get_cluster_name_found (cluster_id : Z) :
  -3 <= cluster_id < PyStr.int_str_bound ->
  exists n, get_cluster_name cluster_id = Ok n /\ n <> "".
Proof.
  intros H.
  destruct (Z_lt_le_dec cluster_id 0) as [Hneg|Hpos].
  - rewrite get_cluster_name_wraps by lia. eexists; split; [reflexivity|].
    apply table_name_nonempty.
  - destruct (Z_lt_le_dec cluster_id 3) as [Hin|Hout].
    + rewrite get_cluster_name_table by lia. eexists; split; [reflexivity|].
      apply table_name_nonempty.
    + rewrite get_cluster_name_beyond by lia. eexists; split; [reflexivity|].
      discriminate.
Qed.

(** Every other id has no name: the lookup raises, with a message. *)
Lemma get_cluster_name_lost (cluster_id : Z) :
  cluster_id < -3 \/ PyStr.int_str_bound <= cluster_id ->
  exists e, get_cluster_name cluster_id = Raise e /\ exn_str e <> "".
Proof.
  intros [H | H].
  - destruct (Z_lt_le_dec cluster_id PyList.ssize_min) as [Hfar|Hnear].
    + rewrite get_cluster_name_unindexable by assumption.
      eexists; split; [reflexivity | discriminate].
    + rewrite get_cluster_name_below by lia.
      eexists; split; [reflexivity | discriminate].
  - rewrite get_cluster_name_unprintable by assumption.
    eexists; split; [reflexivity | discriminate].
Qed.

(** The two cases cover every id. *)
Lemma has_name_or_not (cluster_id : Z) :
  {-3 <= cluster_id < PyStr.int_str_bound}
  + {cluster_id < -3 \/ PyStr.int_str_bound <= cluster_id}.
Proof.
  destruct (Z_lt_le_dec cluster_id (-3)) as [H|H]; [right; lia|].
  destruct (Z_lt_le_dec cluster_id PyStr.int_str_bound) as [H'|H'];
    [left | right]; lia.
Qed.


(** C10, at the input where the code leaves it: the guard of
    [get_cluster_name] bounds the id from above only, and the id -4
    reaches the list with an index that is out of range. *)
Theorem get_cluster_name_minus_four_raises :
  get_cluster_name (-4) = Raise (IndexError "list index out of range").
Proof. reflexivity. Qed.

(** X14. What does hold of the two helpers on every integer. The colour
    lookup returns [colors[id % 3]]. The name lookup returns the table's
    entry for an id from 0 to 2, and [Cluster id] from 3 on as long as the
    id has at most 4300 digits; for an id of more digits the f-string
    raises [ValueError]. It returns the entry counted from the end for
    -1, -2 and -3, and below them it raises [IndexError]: out of range
    for an id that fits the index type, and the failed conversion to the
    index type for an id below -2^63. *)
Lemma lookup_helpers_on_every_id (cluster_id : Z) :
  get_cluster_color cluster_id = Ok (table_color (cluster_id mod 3))
  /\ (0 <= cluster_id <= 2 -> get_cluster_name cluster_id = Ok (table_name cluster_id))
  /\ (3 <= cluster_id < PyStr.int_str_bound ->
      get_cluster_name cluster_id = Ok ("Cluster " ++ PyStr.of_int cluster_id))
  /\ (PyStr.int_str_bound <= cluster_id ->
      get_cluster_name cluster_id
      = Raise (ValueError
                 ("Exceeds the limit (4300 digits) for integer string conversion; "
                  ++ "use sys.set_int_max_str_digits() to increase the limit")))
  /\ (-3 <= cluster_id < 0 ->
      get_cluster_name cluster_id = Ok (table_name (cluster_id + 3)))
  /\ (PyList.ssize_min <= cluster_id < -3 ->
      get_cluster_name cluster_id = Raise (IndexError "list index out of range"))
  /\ (cluster_id < PyList.ssize_min ->
      get_cluster_name cluster_id
      = Raise (IndexError "cannot fit 'int' into an index-sized integer")).
Proof.
  split; [apply get_cluster_color_mod|].
  split; [apply get_cluster_name_table|].
  split; [apply get_cluster_name_beyond|].
  split; [apply get_cluster_name_unprintable|].
  split; [apply get_cluster_name_wraps|].
  split; [apply get_cluster_name_below | apply get_cluster_name_unindexable].
Qed.

(** ** Single prediction *)

(** The cluster and the tag that the first statement of the [try] body
    leaves in [cluster] and [model_used]. *)
Lemma predict_single_try_choice env now school :
  predict_single_try env now school =
  ('(cluster, model_used) <-
     Ok (if MODEL_LOADED env
         then match ml_cluster env (cleaned_input school) with
              | Ok c => (c, "ml")
              | Raise _ => predict_single_rule school
              end
         else predict_single_rule school) ;;
   cluster_name <- get_cluster_name cluster ;;
   cluster_color <- get_cluster_color cluster ;;
   Ok [ ("school", VStr (PyStr.or_default (name school) "Unknown"));
        ("municipality", VStr (PyStr.or_default (municipality school) "Unknown"));
        ("cluster_id", VInt cluster);
        ("cluster_name", VStr cluster_name);
        ("cluster_color", VStr cluster_color);
        ("model_used", VStr model_used);
        ("success", VBool true);
        ("timestamp", VFloat now) ]).
Proof.
  unfold predict_single_try, predict_single_ml, cleaned_input.
  destruct (MODEL_LOADED env); [|reflexivity].
  destruct (ml_cluster env _); reflexivity.
Qed.

Lemma predict_single_rule_range school :
  exists c, predict_single_rule school = (c, "rule_based") /\ 0 <= c <= 2.
Proof.
  unfold predict_single_rule.
  destruct (_ || _)%bool; [eexists; split; [reflexivity | lia]|].
  destruct (_ || _)%bool; eexists; split; try reflexivity; lia.
Qed.

(** The response of [predict_single] for the cluster and the tag that the
    first statement of the [try] body chose. *)
Lemma predict_single_found env now school c mu n :
  (if MODEL_LOADED env
   then match ml_cluster env (cleaned_input school) with
        | Ok c => (c, "ml")
        | Raise _ => predict_single_rule school
        end
   else predict_single_rule school) = (c, mu) ->
  get_cluster_name c = Ok n ->
  predict_single_try env now school =
  Ok [ ("school", VStr (PyStr.or_default (name school) "Unknown"));
       ("municipality", VStr (PyStr.or_default (municipality school) "Unknown"));
       ("cluster_id", VInt c);
       ("cluster_name", VStr n);
       ("cluster_color", VStr (table_color (c mod 3)));
       ("model_used", VStr mu);
       ("success", VBool true);
       ("timestamp", VFloat now) ].
Proof.
  intros Hc Hn. rewrite predict_single_try_choice, Hc. cbn [bind].
  now rewrite Hn, get_cluster_color_mod.
Qed.

Lemma predict_single_lost env now school c mu e :
  (if MODEL_LOADED env
   then match ml_cluster env (cleaned_input school) with
        | Ok c => (c, "ml")
        | Raise _ => predict_single_rule school
        end
   else predict_single_rule school) = (c, mu) ->
  get_cluster_name c = Raise e ->
  predict_single_try env now school = Raise e.
Proof.
  intros Hc Hn. rewrite predict_single_try_choice, Hc. cbn [bind].
  now rewrite Hn.
Qed.

Ltac split_all :=
  repeat match goal with
         | |- _ /\ _ => split
         | |- forall _, _ => intro
         end.

(** Closes the cases of a statement about a response once the response
    is known. *)
Ltac settle_cases :=
  split_all;
  repeat match goal with
         | H : ?x = _, H' : ?x = _ |- _ => rewrite H in H'
         | H : Ok _ = Ok _ |- _ => injection H as H; subst
         | H : Raise _ = Raise _ |- _ => injection H as H; subst
         | H : Ok _ = Raise _ |- _ => discriminate H
         | H : Raise _ = Ok _ |- _ => discriminate H
         | H : true = false |- _ => discriminate H
         | H : false = true |- _ => discriminate H
         end;
  try reflexivity; try lia.

Ltac rule_cluster school c Hc Hr :=
  destruct (predict_single_rule_range school) as [c [Hc Hr]].

Lemma table_id_has_name (c : Z) : 0 <= c <= 2 -> -3 <= c < PyStr.int_str_bound.
Proof.
  intros H. pose proof int_str_bound_large as Hb. rewrite ssize_max_value in Hb. lia.
Qed.

(** X15. [predict_single] returns a response for every record and lets
    no exception out: the response is that of the [try] body when it
    returns, and the error response built from the exception when it
    raises. Its [model_used] is one of the three tags: [ml] when the model
    is loaded and yields an id for which the name lookup returns;
    [rule_based], with the cluster of the rule-based classifier, when the
    model is loaded and fails, and when it is not loaded; [error], with
    [success] false and the message of the exception, when the [try] body
    raises, which it does when the name lookup raises for the id that the
    model yielded. *)
Theorem predict_single_total_and_tagged (env : Env) (now : spec_float) (school : School) :
  exists d,
    predict_single env now school = Ok d
    /\ (forall d', predict_single_try env now school = Ok d' -> d = d')
    /\ (forall e, predict_single_try env now school = Raise e ->
        field d "success" = Some (VBool false)
        /\ field d "model_used" = Some (VStr "error")
        /\ field d "error" = Some (VStr (exn_str e)))
    /\ (MODEL_LOADED env = true ->
        forall c n, ml_cluster env (cleaned_input school) = Ok c ->
        get_cluster_name c = Ok n ->
        field d "model_used" = Some (VStr "ml")
        /\ field d "cluster_id" = Some (VInt c)
        /\ field d "success" = Some (VBool true))
    /\ (MODEL_LOADED env = true ->
        forall e, ml_cluster env (cleaned_input school) = Raise e ->
        field d "model_used" = Some (VStr "rule_based")
        /\ field d "cluster_id" = Some (VInt (fst (predict_single_rule school)))
        /\ field d "success" = Some (VBool true))
    /\ (MODEL_LOADED env = false ->
        field d "model_used" = Some (VStr "rule_based")
        /\ field d "cluster_id" = Some (VInt (fst (predict_single_rule school)))
        /\ field d "success" = Some (VBool true))
    /\ (MODEL_LOADED env = true ->
        forall c e, ml_cluster env (cleaned_input school) = Ok c ->
        get_cluster_name c = Raise e ->
        predict_single_try env now school = Raise e)
    /\ (exists tag, field d "model_used" = Some (VStr tag)
        /\ (tag = "ml" \/ tag = "rule_based" \/ tag = "error")).
Proof.
  unfold predict_single.
  destruct (MODEL_LOADED env) eqn:Hflag;
    [destruct (ml_cluster env (cleaned_input school)) as [c|e] eqn:Hml;
     [destruct (has_name_or_not c) as [Hup|Hlow]|]|].
  - (* the model yields an id with a name *)
    destruct (get_cluster_name_found c Hup) as [n [Hn _]].
    pose proof (predict_single_found env now school c "ml" n) as H.
    rewrite Hflag, Hml in H. rewrite (H eq_refl Hn). clear H.
    eexists; split; [reflexivity|].
    settle_cases.
    exists "ml". split; [reflexivity | auto].
  - (* the model yields an id for which the name lookup raises *)
    destruct (get_cluster_name_lost c Hlow) as [e [Hn _]].
    pose proof (predict_single_lost env now school c "ml" e) as H.
    rewrite Hflag, Hml in H. rewrite (H eq_refl Hn). clear H.
    eexists; split; [reflexivity|].
    settle_cases.
    exists "error". split; [reflexivity | auto].
  - (* the model fails *)
    rule_cluster school c Hc Hr.
    destruct (get_cluster_name_found c (table_id_has_name c Hr)) as [n [Hn _]].
    pose proof (predict_single_found env now school c "rule_based" n) as H.
    rewrite Hflag, Hml in H. rewrite (H Hc Hn). clear H.
    eexists; split; [reflexivity|].
    rewrite Hc.
    settle_cases.
    exists "rule_based". split; [reflexivity | auto].
  - (* no model *)
    rule_cluster school c Hc Hr.
    destruct (get_cluster_name_found c (table_id_has_name c Hr)) as [n [Hn _]].
    pose proof (predict_single_found env now school c "rule_based" n) as H.
    rewrite Hflag in H. rewrite (H Hc Hn). clear H.
    eexists; split; [reflexivity|].
    rewrite Hc.
    settle_cases.
    exists "rule_based". split; [reflexivity | auto].
Qed.



(** The two shapes of a response of [predict_single]. *)
Lemma predict_single_shapes env now school :
  (exists c mu n,
     -3 <= c < PyStr.int_str_bound /\ get_cluster_name c = Ok n /\ n <> ""
     /\ ((MODEL_LOADED env = false
          \/ exists e, ml_cluster env (cleaned_input school) = Raise e) ->
         0 <= c <= 2)
     /\ predict_single env now school =
        Ok [ ("school", VStr (PyStr.or_default (name school) "Unknown"));
             ("municipality", VStr (PyStr.or_default (municipality school) "Unknown"));
             ("cluster_id", VInt c);
             ("cluster_name", VStr n);
             ("cluster_color", VStr (table_color (c mod 3)));
             ("model_used", VStr mu);
             ("success", VBool true);
             ("timestamp", VFloat now) ])
  \/ (exists c e,
        MODEL_LOADED env = true /\ ml_cluster env (cleaned_input school) = Ok c
        /\ (c < -3 \/ PyStr.int_str_bound <= c)
        /\ get_cluster_name c = Raise e /\ exn_str e <> ""
        /\ predict_single env now school =
           Ok [ ("school", VStr (PyStr.or_default (name school) "Unknown"));
                ("municipality", VStr (PyStr.or_default (municipality school) "Unknown"));
                ("error", VStr (exn_str e));
                ("success", VBool false);
                ("model_used", VStr "error") ]).
Proof.
  unfold predict_single.
  destruct (MODEL_LOADED env) eqn:Hflag;
    [destruct (ml_cluster env (cleaned_input school)) as [c|e] eqn:Hml;
     [destruct (has_name_or_not c) as [Hup|Hlow]|]|].
  - left. destruct (get_cluster_name_found c Hup) as [n [Hn Hne]].
    pose proof (predict_single_found env now school c "ml" n) as H.
    rewrite Hflag, Hml in H. rewrite (H eq_refl Hn).
    exists c, "ml", n. split_all; auto; try lia;
    match goal with
    | H : _ \/ _ |- _ => destruct H as [H | [e' H]]; discriminate
    end.
  - right. destruct (get_cluster_name_lost c Hlow) as [e [Hn Hne]].
    exists c, e.
    pose proof (predict_single_lost env now school c "ml" e) as H.
    rewrite Hflag, Hml in H. rewrite (H eq_refl Hn).
    split_all; auto.
  - left. rule_cluster school c Hc Hr.
    pose proof (table_id_has_name c Hr) as Hname.
    destruct (get_cluster_name_found c Hname) as [n [Hn Hne]].
    pose proof (predict_single_found env now school c "rule_based" n) as H.
    rewrite Hflag, Hml in H. rewrite (H Hc Hn).
    exists c, "rule_based", n. split_all; auto; lia.
  - left. rule_cluster school c Hc Hr.
    pose proof (table_id_has_name c Hr) as Hname.
    destruct (get_cluster_name_found c Hname) as [n [Hn Hne]].
    pose proof (predict_single_found env now school c "rule_based" n) as H.
    rewrite Hflag in H. rewrite (H Hc Hn).
    exists c, "rule_based", n. split_all; auto; lia.
Qed.


(** ** The batch loop *)

Lemma count_of_snoc p l v :
  count_of p (l ++ [v]) = count_of p l + (if p v then 1 else 0).
Proof.
  unfold count_of. rewrite filter_app, length_app. cbn [filter].
  destruct (p v); cbn [List.length]; lia.
Qed.

Lemma count_of_nonneg p l : 0 <= count_of p l.
Proof. unfold count_of. lia. Qed.

Lemma count_of_split l :
  count_of is_success l + count_of is_failure l = Z.of_nat (List.length l).
Proof.
  unfold count_of, is_failure. induction l as [|v l IH]; [reflexivity|].
  cbn [filter]. destruct (is_success v); cbn [negb List.length]; lia.
Qed.

Lemma increment_three a b c k counts :
  PyDict.increment [(0, a); (1, b); (2, c)] k = Ok counts ->
  (k = 0 /\ counts = [(0, a + 1); (1, b); (2, c)])
  \/ (k = 1 /\ counts = [(0, a); (1, b + 1); (2, c)])
  \/ (k = 2 /\ counts = [(0, a); (1, b); (2, c + 1)]).
Proof.
  unfold PyDict.increment. cbn [PyDict.get PyDict.set].
  destruct (k =? 0) eqn:E0.
  - intros H. injection H as <-. left. split; [lia | reflexivity].
  - destruct (k =? 1) eqn:E1.
    + intros H. injection H as <-. right; left. split; [lia | reflexivity].
    + destruct (k =? 2) eqn:E2; [|discriminate].
      intros H. injection H as <-. right; right. split; [lia | reflexivity].
Qed.

(** One iteration keeps the tallies and appends the response for the
    school. *)
Lemma loop_body_tallied env now st school st' :
  loop_body env now st school = Ok st' -> tallied st ->
  tallied st'
  /\ exists d, predict_single env now school = Ok d
               /\ results st' = (results st ++ [VDict d])%list.
Proof.
  unfold loop_body. intros H [Hcounts [Hsucc Hsum]].
  destruct (predict_single_shapes env now school)
    as [[c [mu [n [Hc [Hn [Hne [Hrule Hd]]]]]]]
       | [c [e [Hflag [Hml [Hc [Hraise [Hmsg Hd]]]]]]]];
    rewrite Hd in H |- *; cbn [bind] in H.
  - change (PyDict.item _ "success") with (Ok (VBool true)) in H.
    cbn [bind truthy] in H.
    change (PyDict.item _ "cluster_id") with (Ok (VInt c)) in H.
    cbn [bind] in H. rewrite Hcounts in H.
    destruct (PyDict.increment _ c) as [counts|] eqn:Hinc; [|discriminate].
    cbn [bind] in H. injection H as <-.
    split; [|eexists; split; reflexivity].
    unfold tallied; cbn [results cluster_counts successful].
    rewrite !count_of_snoc.
    apply increment_three in Hinc as [[-> ->] | [[-> ->] | [-> ->]]];
      cbn; rewrite ?Z.add_0_r; (split; [reflexivity | split; lia]).
  - change (PyDict.item _ "success") with (Ok (VBool false)) in H.
    cbn [bind truthy] in H. injection H as <-.
    split; [|eexists; split; reflexivity].
    unfold tallied; cbn [results cluster_counts successful].
    rewrite !count_of_snoc. cbn. rewrite ?Z.add_0_r. auto.
Qed.

Lemma batch_loop_tallied env clock : forall todo i st st',
  batch_loop env clock i todo st = Ok st' -> tallied st ->
  tallied st'
  /\ exists new, results st' = (results st ++ new)%list
                 /\ Forall2 (response_for env) todo new.
Proof.
  induction todo as [|school todo IH]; intros i st st' H Ht.
  - injection H as <-. split; [exact Ht|]. exists [].
    split; [now rewrite app_nil_r | constructor].
  - cbn [batch_loop] in H.
    destruct (loop_body env (at_school clock i) st school) as [st1|] eqn:Hbody;
      [|discriminate].
    cbn [bind] in H.
    destruct (loop_body_tallied _ _ _ _ _ Hbody Ht) as [Ht1 [d [Hd Hr1]]].
    destruct (IH _ _ _ H Ht1) as [Ht' [new [Hr' Hall]]].
    split; [exact Ht'|]. exists (VDict d :: new). split.
    + rewrite Hr', Hr1, <- app_assoc. reflexivity.
    + constructor; [|exact Hall]. now exists (at_school clock i), d.
Qed.

Lemma initial_state_tallied : tallied initial_state.
Proof. repeat split. Qed.

Lemma max_scan_three n0 n1 n2 :
  let dom := fst (PyDict.max_scan (0, n0) [(1, n1); (2, n2)]) in
  (dom = 0 /\ n1 <= n0 /\ n2 <= n0)
  \/ (dom = 1 /\ n0 < n1 /\ n2 <= n1)
  \/ (dom = 2 /\ n0 < n2 /\ n1 < n2).
Proof.
  cbn [PyDict.max_scan snd].
  destruct (n0 <? n1) eqn:E1; cbn [snd];
    [destruct (n1 <? n2) eqn:E2 | destruct (n0 <? n2) eqn:E2]; cbn [fst]; lia.
Qed.

(** What a batch request with at least one school returns, when it
    returns. *)
Lemma get_cluster_batch_inv env clock batch d :
  schools batch <> [] ->
  get_cluster_batch env clock batch = Ok d ->
  exists rs n0 n1 n2 p0 p1 p2 seconds dom,
    Forall2 (response_for env) (schools batch) rs
    /\ n0 = count_of (in_cluster 0) rs
    /\ n1 = count_of (in_cluster 1) rs
    /\ n2 = count_of (in_cluster 2) rs
    /\ count_of is_success rs = n0 + n1 + n2
    /\ rounded_percentage n0 (count_of is_success rs) = Ok p0
    /\ rounded_percentage n1 (count_of is_success rs) = Ok p1
    /\ rounded_percentage n2 (count_of is_success rs) = Ok p2
    /\ py_round (VFloat (PyFloat.sub (at_end clock) (at_start clock))) 3 = Ok seconds
    /\ dom = fst (PyDict.max_scan (0, n0) [(1, n1); (2, n2)])
    /\ d =
       [ ("results", VList rs);
         ("summary", VDict [
            ("total_schools", VInt (Z.of_nat (List.length rs)));
            ("successful_predictions", VInt (count_of is_success rs));
            ("failed_predictions",
             VInt (Z.of_nat (List.length rs) - count_of is_success rs));
            ("processing_time_seconds", seconds);
            ("clusters", VList [
               VDict [ ("id", VInt 0); ("name", VStr "Inabanga  Schools");
                       ("count", VInt n0); ("percentage", p0);
                       ("color", VStr "#0088FE") ];
               VDict [ ("id", VInt 1); ("name", VStr "Clarin Schools");
                       ("count", VInt n1); ("percentage", p1);
                       ("color", VStr "#00C49F") ];
               VDict [ ("id", VInt 2); ("name", VStr "Tubigon  Schools");
                       ("count", VInt n2); ("percentage", p2);
                       ("color", VStr "#FFBB28") ] ]);
            ("dominant_cluster", VInt dom);
            ("dominant_cluster_name", VStr (table_name dom));
            ("model_used", VStr (if MODEL_LOADED env then "ml" else "rule_based"));
            ("performance",
             VStr (PyFloat.format_3f (PyFloat.sub (at_end clock) (at_start clock))
                   ++ "s for " ++ PyStr.of_int (Z.of_nat (List.length rs))
                   ++ " schools")) ]) ].
Proof.
  intros Hne H. unfold get_cluster_batch in H.
  destruct (schools batch) as [|school todo] eqn:Hs; [congruence|].
  destruct (batch_loop env clock 0 (school :: todo) initial_state) as [st|] eqn:Hloop;
    [|discriminate].
  cbn [bind] in H.
  destruct (batch_loop_tallied _ _ _ _ _ _ Hloop initial_state_tallied)
    as [[Hcounts [Hsucc Hsum]] [rs [Hrs Hall]]].
  cbn [results initial_state app] in Hrs. rewrite Hrs in *.
  rewrite Hcounts, Hsucc in H. rewrite Hsucc in Hsum.
  set (n0 := count_of (in_cluster 0) rs) in *.
  set (n1 := count_of (in_cluster 1) rs) in *.
  set (n2 := count_of (in_cluster 2) rs) in *.
  set (s := count_of is_success rs) in *.
  cbn [percentages_loop PyDict.get_or_zero PyDict.get Z.eqb Pos.eqb] in H.
  destruct (rounded_percentage n0 s) as [p0|] eqn:Hp0; [|discriminate].
  cbn [bind] in H.
  destruct (rounded_percentage n1 s) as [p1|] eqn:Hp1; [|discriminate].
  cbn [bind] in H.
  destruct (rounded_percentage n2 s) as [p2|] eqn:Hp2; [|discriminate].
  cbn [bind PyDict.set Z.eqb Pos.eqb PyDict.max_by_value] in H.
  destruct (py_round _ 3) as [seconds|] eqn:Hsec; [|discriminate].
  cbn [bind] in H.
  unfold summary_entry in H.
  change (get_cluster_name 0) with (@Ok string "Inabanga  Schools") in H.
  change (get_cluster_name 1) with (@Ok string "Clarin Schools") in H.
  change (get_cluster_name 2) with (@Ok string "Tubigon  Schools") in H.
  change (get_cluster_color 0) with (@Ok string "#0088FE") in H.
  change (get_cluster_color 1) with (@Ok string "#00C49F") in H.
  change (get_cluster_color 2) with (@Ok string "#FFBB28") in H.
  cbn [bind percentage_or_zero PyDict.get PyDict.get_or_zero Z.eqb Pos.eqb] in H.
  assert (Hdom : get_cluster_name (fst (PyDict.max_scan (0, n0) [(1, n1); (2, n2)]))
                 = Ok (table_name (fst (PyDict.max_scan (0, n0) [(1, n1); (2, n2)])))).
  { apply get_cluster_name_table.
    destruct (max_scan_three n0 n1 n2) as [[-> _] | [[-> _] | [-> _]]]; lia. }
  rewrite Hdom in H. cbn [bind] in H. injection H as <-.
  exists rs, n0, n1, n2, p0, p1, p2, seconds,
    (fst (PyDict.max_scan (0, n0) [(1, n1); (2, n2)])).
  split_all; try reflexivity; try assumption.
Qed.

(** ** Batch prediction *)

(** C8. For a batch without schools the request returns, without
    raising, the two-entry response [error], [success]; it has neither
    [results] nor [summary], which every response to a batch with schools
    has, and the latter has no [error]. *)
Theorem empty_batch_error_shape (env : Env) (clock : Clock) :
  get_cluster_batch env clock {| schools := [] |}
  = Ok [ ("error", VStr "No schools provided"); ("success", VBool false) ]
  /\ field [ ("error", VStr "No schools provided"); ("success", VBool false) ]
           "results" = None
  /\ field [ ("error", VStr "No schools provided"); ("success", VBool false) ]
           "summary" = None
  /\ (forall batch d,
        schools batch <> [] -> get_cluster_batch env clock batch = Ok d ->
        (exists rs, field d "results" = Some (VList rs))
        /\ (exists summary, field d "summary" = Some (VDict summary))
        /\ field d "error" = None /\ field d "success" = None).
Proof.
  split_all; try reflexivity;
    destruct (get_cluster_batch_inv _ _ _ _ H H0)
      as (rs & n0 & n1 & n2 & p0 & p1 & p2 & seconds & dom & _ & _ & _ & _ & _
          & _ & _ & _ & _ & _ & ->);
    try reflexivity; eexists; reflexivity.
Qed.

(** C7. In the summary of a batch with schools, [dominant_cluster] is one
    of 0, 1, 2; no cluster has more successful results than it, and every
    cluster of a lower id has fewer. The counts 2, 2, 0 give 0. *)
Theorem dominant_cluster_maximal (env : Env) (clock : Clock) (batch : BatchRequest)
    (d : dict) :
  schools batch <> [] ->
  get_cluster_batch env clock batch = Ok d ->
  exists rs dom,
    field d "results" = Some (VList rs)
    /\ cluster_stat d 0 "count" = Some (VInt (count_of (in_cluster 0) rs))
    /\ cluster_stat d 1 "count" = Some (VInt (count_of (in_cluster 1) rs))
    /\ cluster_stat d 2 "count" = Some (VInt (count_of (in_cluster 2) rs))
    /\ summary_field d "dominant_cluster" = Some (VInt dom)
    /\ 0 <= dom <= 2
    /\ (forall k, 0 <= k <= 2 ->
        count_of (in_cluster k) rs <= count_of (in_cluster dom) rs)
    /\ (forall k, 0 <= k < dom ->
        count_of (in_cluster k) rs < count_of (in_cluster dom) rs)
    /\ PyDict.max_by_value [(0, 2); (1, 2); (2, 0)] = Ok (0, 2).
Proof.
  intros Hne H.
  destruct (get_cluster_batch_inv _ _ _ _ Hne H)
    as (rs & n0 & n1 & n2 & p0 & p1 & p2 & seconds & dom & _ & -> & -> & -> & _
        & _ & _ & _ & _ & Hdom & ->).
  exists rs, dom. split_all; try reflexivity;
    destruct (max_scan_three (count_of (in_cluster 0) rs)
                (count_of (in_cluster 1) rs) (count_of (in_cluster 2) rs))
      as [[E ?] | [[E ?] | [E ?]]];
    rewrite <- Hdom in E; clear Hdom; subst dom; try lia;
    match goal with
    | Hk : _ <= ?k <= _ |- _ =>
        assert (k = 0 \/ k = 1 \/ k = 2) as [-> | [-> | ->]] by lia; lia
    | Hk : _ <= ?k < _ |- _ =>
        assert (k = 0 \/ k = 1) as [-> | ->] by lia; lia
    end.
Qed.

Lemma dominant_cluster_maximal_witness :
  schools tie_batch <> []
  /\ exists d,
       get_cluster_batch env_without_model still_clock tie_batch = Ok d
       /\ summary_field d "dominant_cluster" = Some (VInt 0)
       /\ cluster_stat d 0 "count" = Some (VInt 2)
       /\ cluster_stat d 1 "count" = Some (VInt 2)
       /\ cluster_stat d 2 "count" = Some (VInt 0)
       /\ exists rs dom,
            field d "results" = Some (VList rs)
            /\ cluster_stat d 0 "count" = Some (VInt (count_of (in_cluster 0) rs))
            /\ cluster_stat d 1 "count" = Some (VInt (count_of (in_cluster 1) rs))
            /\ cluster_stat d 2 "count" = Some (VInt (count_of (in_cluster 2) rs))
            /\ summary_field d "dominant_cluster" = Some (VInt dom)
            /\ 0 <= dom <= 2
            /\ (forall k, 0 <= k <= 2 ->
                count_of (in_cluster k) rs <= count_of (in_cluster dom) rs)
            /\ (forall k, 0 <= k < dom ->
                count_of (in_cluster k) rs < count_of (in_cluster dom) rs)
            /\ PyDict.max_by_value [(0, 2); (1, 2); (2, 0)] = Ok (0, 2).
Proof.
  split; [discriminate|].
  eexists. split; [vm_compute; reflexivity|].
  split; [reflexivity|]. split; [reflexivity|].
  split; [reflexivity|]. split; [reflexivity|].
  apply (dominant_cluster_maximal env_without_model still_clock tie_batch);
    [discriminate | vm_compute; reflexivity].
Defined.

(** ** The cluster table *)

Lemma predict_single_table env now school d c :
  predict_single env now school = Ok d ->
  field d "cluster_id" = Some (VInt c) -> 0 <= c <= 2 ->
  field d "cluster_name" = Some (VStr (table_name c))
  /\ field d "cluster_color" = Some (VStr (table_color c)).
Proof.
  intros Hd Hc Hr.
  destruct (predict_single_shapes env now school)
    as [[c' [mu [n [_ [Hn [_ [_ Hd']]]]]]] | [c' [e' [_ [_ [_ [_ [_ Hd']]]]]]]];
    rewrite Hd' in Hd; injection Hd as <-; [|discriminate].
  injection Hc as ->.
  rewrite (get_cluster_name_table c Hr) in Hn. injection Hn as <-.
  rewrite Z.mod_small by lia. split; reflexivity.
Qed.

Lemma responses_in_results env todo rs :
  Forall2 (response_for env) todo rs ->
  forall v, In v rs -> exists school, response_for env school v.
Proof.
  induction 1 as [|school v todo rs Hv _ IH]; intros w Hw; [destruct Hw|].
  destruct Hw as [<- | Hw]; [now exists school | now apply IH].
Qed.

(** C9, as the specification spells the names, fails: the names of the
    clusters 0 and 2 have two spaces between their words. *)
Lemma table_names_have_two_spaces :
  get_cluster_name 0 = Ok "Inabanga  Schools"
  /\ get_cluster_name 0 <> Ok "Inabanga Schools"
  /\ get_cluster_name 2 = Ok "Tubigon  Schools"
  /\ get_cluster_name 2 <> Ok "Tubigon Schools".
Proof. split_all; try reflexivity; discriminate. Qed.

(** C9, amended. The table maps 0 to [Inabanga  Schools] (two spaces) and
    [#0088FE], 1 to [Clarin Schools] and [#00C49F], 2 to
    [Tubigon  Schools] (two spaces) and [#FFBB28]; a response of
    [predict_single] whose id is among 0, 1, 2 carries the name and the
    colour of that entry; the health response lists the three entries;
    and so does the summary of a batch, whose [dominant_cluster_name] is
    the name of its [dominant_cluster] and whose results carry the
    entries of their ids. *)
Theorem cluster_table_everywhere :
  (get_cluster_name 0 = Ok "Inabanga  Schools"
   /\ get_cluster_name 1 = Ok "Clarin Schools"
   /\ get_cluster_name 2 = Ok "Tubigon  Schools"
   /\ get_cluster_color 0 = Ok "#0088FE"
   /\ get_cluster_color 1 = Ok "#00C49F"
   /\ get_cluster_color 2 = Ok "#FFBB28")
  /\ (forall id, 0 <= id <= 2 ->
      get_cluster_name id = Ok (table_name id)
      /\ get_cluster_color id = Ok (table_color id))
  /\ (forall env now school d c,
      predict_single env now school = Ok d ->
      field d "cluster_id" = Some (VInt c) -> 0 <= c <= 2 ->
      field d "cluster_name" = Some (VStr (table_name c))
      /\ field d "cluster_color" = Some (VStr (table_color c)))
  /\ (forall env stamp,
      exists d,
        health_check env stamp = Ok d
        /\ field d "clusters" = Some (VList [
             VDict [ ("id", VInt 0); ("name", VStr "Inabanga  Schools");
                     ("color", VStr "#0088FE") ];
             VDict [ ("id", VInt 1); ("name", VStr "Clarin Schools");
                     ("color", VStr "#00C49F") ];
             VDict [ ("id", VInt 2); ("name", VStr "Tubigon  Schools");
                     ("color", VStr "#FFBB28") ] ]))
  /\ (forall env clock batch d,
      schools batch <> [] -> get_cluster_batch env clock batch = Ok d ->
      (cluster_stat d 0 "id" = Some (VInt 0)
       /\ cluster_stat d 0 "name" = Some (VStr "Inabanga  Schools")
       /\ cluster_stat d 0 "color" = Some (VStr "#0088FE")
       /\ cluster_stat d 1 "id" = Some (VInt 1)
       /\ cluster_stat d 1 "name" = Some (VStr "Clarin Schools")
       /\ cluster_stat d 1 "color" = Some (VStr "#00C49F")
       /\ cluster_stat d 2 "id" = Some (VInt 2)
       /\ cluster_stat d 2 "name" = Some (VStr "Tubigon  Schools")
       /\ cluster_stat d 2 "color" = Some (VStr "#FFBB28"))
      /\ (exists dom,
            summary_field d "dominant_cluster" = Some (VInt dom)
            /\ 0 <= dom <= 2
            /\ summary_field d "dominant_cluster_name" = Some (VStr (table_name dom)))
      /\ (exists rs,
            field d "results" = Some (VList rs)
            /\ forall r c,
                 In (VDict r) rs ->
                 field r "cluster_id" = Some (VInt c) -> 0 <= c <= 2 ->
                 field r "cluster_name" = Some (VStr (table_name c))
                 /\ field r "cluster_color" = Some (VStr (table_color c)))).
Proof.
  split; [split_all; reflexivity|].
  split.
  { intros id Hid. rewrite get_cluster_name_table, get_cluster_color_mod by exact Hid.
    rewrite Z.mod_small by lia. split; reflexivity. }
  split; [exact predict_single_table|].
  split; [intros env stamp; eexists; split; reflexivity|].
  intros env clock batch d Hne H.
  destruct (get_cluster_batch_inv _ _ _ _ Hne H)
    as (rs & n0 & n1 & n2 & p0 & p1 & p2 & seconds & dom & Hall & _ & _ & _ & _
        & _ & _ & _ & _ & Hdom & ->).
  split; [split_all; reflexivity|].
  split.
  - exists dom. split; [reflexivity|]. split; [|reflexivity].
    destruct (max_scan_three n0 n1 n2) as [[E _] | [[E _] | [E _]]];
      rewrite <- Hdom in E; lia.
  - exists rs. split; [reflexivity|]. intros r c Hin Hc Hr.
    destruct (responses_in_results _ _ _ Hall _ Hin) as [school [now [d [Hd Hv]]]].
    injection Hv as ->. exact (predict_single_table _ _ _ _ _ Hd Hc Hr).
Qed.

(** ** Binary64 rounding: upper bounds that lie on the rounding grid *)

Section Rounding.
Import PyFloat.

Lemma digits2_pos_lower p : 2 ^ (Zpos (digits2_pos p) - 1) <= Zpos p.
Proof.
  induction p as [p IH | p IH |]; cbn [digits2_pos]; [| |cbn; lia];
    rewrite Pos2Z.inj_succ;
    replace (Z.succ (Zpos (digits2_pos p)) - 1) with (Z.succ (Zpos (digits2_pos p) - 1)) by lia;
    rewrite Z.pow_succ_r by lia; lia.
Qed.

(** A number below [2^d] has at most [d] binary digits. *)
Lemma Zdigits2_le m d : 0 <= m -> 0 <= d -> m < 2 ^ d -> Zdigits2 m <= d.
Proof.
  intros Hm Hd H. destruct m as [|p|p]; [exact Hd | | lia].
  cbn [Zdigits2]. pose proof (digits2_pos_lower p) as Hl.
  destruct (Z_lt_le_dec d (Zpos (digits2_pos p))) as [Hlt|]; [|assumption].
  assert (2 ^ d <= 2 ^ (Zpos (digits2_pos p) - 1)) by (apply Z.pow_le_mono_r; lia).
  lia.
Qed.

Lemma pow2_xO p : 2 ^ Zpos p~0 = 2 ^ Zpos p * 2 ^ Zpos p.
Proof.
  replace (Zpos p~0) with (Zpos p + Zpos p) by lia. now rewrite Z.pow_add_r by lia.
Qed.

Lemma pow2_xI p : 2 ^ Zpos p~1 = 2 * (2 ^ Zpos p * 2 ^ Zpos p).
Proof.
  replace (Zpos p~1) with (1 + (Zpos p + Zpos p)) by lia.
  now rewrite !Z.pow_add_r by lia.
Qed.

Lemma pow2_pos e : 0 <= e -> 0 < 2 ^ e.
Proof. intros H. apply Z.pow_pos_nonneg; lia. Qed.

Lemma shr_1_ceiling mrs C :
  0 <= shr_m mrs -> ceiling_of mrs <= 2 * C ->
  0 <= shr_m (shr_1 mrs) /\ ceiling_of (shr_1 mrs) <= C.
Proof.
  destruct mrs as [m r s]. unfold ceiling_of. cbn [shr_m shr_r shr_s].
  destruct m as [|[p|p|]|p]; cbn [shr_1 shr_m shr_r shr_s]; intros Hm H; try lia;
    destruct r, s; cbn [orb] in *; lia.
Qed.

Lemma shr_1_floor mrs :
  0 <= shr_m mrs -> 2 * shr_m (shr_1 mrs) <= shr_m mrs.
Proof.
  destruct mrs as [m r s]. cbn [shr_m].
  destruct m as [|[p|p|]|p]; cbn [shr_1 shr_m]; lia.
Qed.

Lemma iter_shr_1_ceiling p : forall mrs C,
  0 <= shr_m mrs -> ceiling_of mrs <= 2 ^ Zpos p * C ->
  0 <= shr_m (SpecFloat.iter_pos shr_1 p mrs) /\ ceiling_of (SpecFloat.iter_pos shr_1 p mrs) <= C.
Proof.
  induction p as [p IH | p IH |]; intros mrs C Hm H; cbn [SpecFloat.iter_pos].
  - rewrite pow2_xI in H.
    destruct (shr_1_ceiling mrs (2 ^ Zpos p * (2 ^ Zpos p * C)) Hm ltac:(lia)) as [H1 H2].
    destruct (IH _ _ H1 H2) as [H3 H4]. exact (IH _ _ H3 H4).
  - rewrite pow2_xO in H.
    destruct (IH mrs (2 ^ Zpos p * C) Hm ltac:(lia)) as [H3 H4]. exact (IH _ _ H3 H4).
  - apply shr_1_ceiling; [exact Hm | exact H].
Qed.

Lemma iter_shr_1_floor p : forall mrs,
  0 <= shr_m mrs ->
  0 <= shr_m (SpecFloat.iter_pos shr_1 p mrs)
  /\ 2 ^ Zpos p * shr_m (SpecFloat.iter_pos shr_1 p mrs) <= shr_m mrs.
Proof.
  assert (step : forall mrs, 0 <= shr_m mrs -> 0 <= shr_m (shr_1 mrs)).
  { intros [m r s]. cbn [shr_m]. destruct m as [|[q|q|]|q]; cbn [shr_1 shr_m]; lia. }
  induction p as [p IH | p IH |]; intros mrs Hm; cbn [SpecFloat.iter_pos].
  - rewrite pow2_xI.
    pose proof (shr_1_floor mrs Hm) as H0. pose proof (step mrs Hm) as H0'.
    destruct (IH _ H0') as [H1 H2]. destruct (IH _ H1) as [H3 H4].
    split; [exact H3|].
    pose proof (pow2_pos (Zpos p) ltac:(lia)). nia.
  - rewrite pow2_xO.
    destruct (IH _ Hm) as [H1 H2]. destruct (IH _ H1) as [H3 H4].
    split; [exact H3|].
    pose proof (pow2_pos (Zpos p) ltac:(lia)). nia.
  - split; [apply step; exact Hm|]. change (2 ^ 1) with 2. apply shr_1_floor; exact Hm.
Qed.

Lemma shr_spec mrs e n mrs' e' :
  shr mrs e n = (mrs', e') -> 0 <= shr_m mrs ->
  e' = e + Z.max 0 n
  /\ 0 <= shr_m mrs'
  /\ 2 ^ Z.max 0 n * shr_m mrs' <= shr_m mrs
  /\ (forall C, ceiling_of mrs <= 2 ^ Z.max 0 n * C -> ceiling_of mrs' <= C).
Proof.
  intros H Hm. destruct n as [|p|p]; cbn [shr] in H; injection H as <- <-.
  - change (Z.max 0 0) with 0. change (2 ^ 0) with 1.
    split_all; lia.
  - replace (Z.max 0 (Zpos p)) with (Zpos p) by lia.
    destruct (iter_shr_1_floor p mrs Hm) as [H1 H2].
    split_all; try lia. apply (iter_shr_1_ceiling p mrs C Hm). assumption.
  - replace (Z.max 0 (Zneg p)) with 0 by lia. change (2 ^ 0) with 1.
    split_all; lia.
Qed.

Lemma round_nearest_even_bounds mrs :
  shr_m mrs <= round_nearest_even (shr_m mrs) (loc_of_shr_record mrs)
  /\ round_nearest_even (shr_m mrs) (loc_of_shr_record mrs) <= ceiling_of mrs.
Proof.
  destruct mrs as [m r s]. unfold ceiling_of. cbn [shr_m shr_r shr_s].
  destruct r, s; cbn; try destruct (Z.even m); lia.
Qed.

Lemma ceiling_of_loc m l : ceiling_of (shr_record_of_loc m l) = ceiling_at m l.
Proof. destruct l as [|[]]; reflexivity. Qed.

Lemma shr_m_of_loc m l : shr_m (shr_record_of_loc m l) = m.
Proof. destruct l as [|[]]; reflexivity. Qed.

(** Cancelling a common power of two. *)
Lemma pow2_cancel a b x y z :
  z <= x -> z <= y -> 
  a * 2 ^ (x - z) <= b * 2 ^ (y - z) ->
  a * 2 ^ (x - Z.min x y) <= b * 2 ^ (y - Z.min x y).
Proof.
  intros Hx Hy H.
  assert (Hp := pow2_pos (Z.min x y - z) ltac:(lia)).
  replace (x - z) with ((x - Z.min x y) + (Z.min x y - z)) in H by lia.
  replace (y - z) with ((y - Z.min x y) + (Z.min x y - z)) in H by lia.
  rewrite !Z.pow_add_r in H by lia.
  nia.
Qed.

(** Rounding does not cross a bound that lies on the grid of the rounded
    value: what is at most [K * 2^k] before [binary_round_aux] is at most
    that after it, and is finite. *)
Lemma binary_round_aux_at_most sx mx ex lx K k :
  0 <= mx -> ex <= k ->
  fexp prec emax (Zdigits2 mx + ex) <= k ->
  ceiling_at mx lx <= K * 2 ^ (k - ex) ->
  k <= emax - prec -> K < 2 ^ (emax - k) ->
  match binary_round_aux prec emax sx mx ex lx with
  | S754_zero s => s = sx
  | S754_finite s m e =>
      s = sx /\ Zpos m * 2 ^ (e - Z.min e k) <= K * 2 ^ (k - Z.min e k)
  | _ => False
  end.
Proof.
  intros Hmx Hex Hgrid Hceil Hk HK.
  assert (Hemax : emax = 1024) by reflexivity.
  assert (Hprec : prec = 53) by reflexivity.
  unfold binary_round_aux, shr_fexp.
  destruct (shr (shr_record_of_loc mx lx) ex
              (fexp prec emax (Zdigits2 mx + ex) - ex)) as [mrs1 e1] eqn:E1.
  destruct (shr_spec _ _ _ _ _ E1) as [He1 [Hm1 [_ Hc1]]];
    [rewrite shr_m_of_loc; exact Hmx|].
  assert (He1k : e1 <= k) by lia.
  specialize (Hc1 (K * 2 ^ (k - e1))).
  assert (Hceil1 : ceiling_of mrs1 <= K * 2 ^ (k - e1)).
  { apply Hc1. rewrite ceiling_of_loc.
    replace (k - ex) with (Z.max 0 (fexp prec emax (Zdigits2 mx + ex) - ex) + (k - e1))
      in Hceil by lia.
    rewrite Z.pow_add_r in Hceil by lia. lia. }
  destruct (round_nearest_even_bounds mrs1) as [Hlo Hhi].
  set (m2 := round_nearest_even (shr_m mrs1) (loc_of_shr_record mrs1)) in *.
  destruct (shr (shr_record_of_loc m2 loc_Exact) e1
              (fexp prec emax (Zdigits2 m2 + e1) - e1)) as [mrs3 e3] eqn:E3.
  destruct (shr_spec _ _ _ _ _ E3) as [He3 [Hm3 [Hfl _]]];
    [cbn [shr_record_of_loc shr_m]; lia|].
  cbn [shr_record_of_loc shr_m] in Hfl.
  assert (Hpow : 0 < 2 ^ (k - e1)) by (apply pow2_pos; lia).
  assert (Hm2 : m2 < 2 ^ (emax - e1)).
  { replace (emax - e1) with ((emax - k) + (k - e1)) by lia.
    rewrite Z.pow_add_r by lia. nia. }
  assert (Hd2 : Zdigits2 m2 <= emax - e1)
    by (apply Zdigits2_le; lia).
  assert (He3max : e3 <= emax - prec).
  { rewrite He3. unfold fexp, emin in *. lia. }
  destruct (shr_m mrs3) as [|m|m] eqn:Em3; [reflexivity | | lia].
  apply Z.leb_le in He3max. rewrite He3max.
  split; [reflexivity|].
  apply (pow2_cancel _ _ _ _ e1); [lia | lia |].
  replace (e3 - e1) with (Z.max 0 (fexp prec emax (Zdigits2 m2 + e1) - e1)) by lia.
  lia.
Qed.
End Rounding.

(** ** The percentages of the summary *)

Section Percentages.
Import PyFloat.

Lemma ceiling_at_new_location s r q :
  ceiling_at q (new_location s r) = q + (if r =? 0 then 0 else 1).
Proof.
  unfold new_location, new_location_even, new_location_odd, ceiling_at.
  destruct (Z.even s), (r =? 0); reflexivity.
Qed.

(** The correctly rounded quotient of [a] by [b] keeps the sign it is
    given, is finite, and is at most [K * 2^k] in magnitude when [a / b]
    is. *)
Lemma nearest_quotient_bounded sg a b K k :
  0 <= a -> 0 < b -> 0 <= k <= emax - prec ->
  K < 2 ^ prec -> K < 2 ^ (emax - k) ->
  a <= K * 2 ^ k * b ->
  match nearest_quotient sg a b with
  | S754_zero s => s = sg
  | S754_finite s m e =>
      s = sg /\ Zpos m * 2 ^ (e - Z.min e k) <= K * 2 ^ (k - Z.min e k)
  | _ => False
  end.
Proof.
  intros Ha Hb Hk HK53 HK Hab. unfold nearest_quotient, SFdiv_core_binary.
  assert (Hemax : emax = 1024) by reflexivity.
  assert (Hprec : prec = 53) by reflexivity.
  set (e' := Z.min (fexp prec emax (Zdigits2 a + 0 - (Zdigits2 b + 0))) (0 - 0)).
  assert (He' : e' <= 0) by (unfold e'; lia).
  set (m' := match 0 - 0 - e' with
             | Zpos _ => Z.shiftl a (0 - 0 - e')
             | Z0 => a
             | Zneg _ => 0
             end).
  assert (Hm' : m' = a * 2 ^ (- e')).
  { unfold m'. destruct (0 - 0 - e') as [|p|p] eqn:E.
    - replace (- e') with 0 by lia. cbn. lia.
    - rewrite Z.shiftl_mul_pow2 by lia. f_equal. f_equal. lia.
    - lia. }
  clearbody m' e'.
  pose proof (Z_div_mod m' b ltac:(lia)) as Hdiv.
  destruct (Z.div_eucl m' b) as [q r]. destruct Hdiv as [Hq Hr].
  pose proof (pow2_pos (- e') ltac:(lia)) as Hpow.
  pose proof (pow2_pos k ltac:(lia)) as Hpowk.
  assert (Hsplit : 2 ^ (k - e') = 2 ^ k * 2 ^ (- e')).
  { replace (k - e') with (k + - e') by lia. apply Z.pow_add_r; lia. }
  assert (Hq0 : 0 <= q) by nia.
  assert (Hceil : ceiling_at q (new_location b r) <= K * 2 ^ (k - e')).
  { rewrite ceiling_at_new_location, Hsplit.
    assert (b * q + r <= (K * (2 ^ k * 2 ^ (- e'))) * b) by nia.
    destruct (r =? 0) eqn:Er; nia. }
  assert (Hqlt : q < 2 ^ (prec + (k - e'))).
  { rewrite Z.pow_add_r by lia.
    rewrite ceiling_at_new_location in Hceil.
    pose proof (pow2_pos (k - e') ltac:(lia)).
    destruct (r =? 0); nia. }
  pose proof (Zdigits2_le q (prec + (k - e')) Hq0 ltac:(lia) Hqlt) as Hdig.
  exact (binary_round_aux_at_most sg q e' (new_location b r) K k
           Hq0 ltac:(lia) ltac:(unfold fexp, emin; lia) Hceil ltac:(lia) HK).
Qed.

(** The quotient of [c] by [s], for [0 <= c <= s], is a float that is at
    most 1. *)
Lemma nearest_quotient_at_most_one c s :
  0 <= c <= s -> 0 < s -> at_most 1 0 (nearest_quotient false c s).
Proof.
  intros Hc Hs.
  pose proof (nearest_quotient_bounded false c s 1 0 ltac:(lia) Hs
                ltac:(unfold emax, prec; lia) eq_refl eq_refl
                ltac:(change (2 ^ 0) with 1; lia)) as H.
  unfold at_most.
  destruct (nearest_quotient false c s) as [sg|sg| |sg m e]; try contradiction.
  - now subst sg.
  - destruct H as [-> H]. exact H.
Qed.

(** What [at_most 1 0] says of a finite float. *)
Lemma at_most_one_finite m e :
  at_most 1 0 (S754_finite false m e) -> e <= 0 /\ Zpos m <= 2 ^ (- e).
Proof.
  unfold at_most. intros H.
  destruct (Z_lt_le_dec 0 e) as [Hpos|Hneg].
  - replace (Z.min e 0) with 0 in H by lia.
    rewrite Z.sub_0_r in H. change (1 * 2 ^ (0 - 0)) with 1 in H.
    pose proof (Z.pow_le_mono_r 2 1 e ltac:(lia) ltac:(lia)) as Hp.
    change (2 ^ 1) with 2 in Hp. nia.
  - replace (Z.min e 0) with e in H by lia.
    rewrite Z.sub_diag in H. change (2 ^ 0) with 1 in H.
    replace (0 - e) with (- e) in H by lia. lia.
Qed.

(** A float that is at most 1, times 100, is at most 100. *)
Lemma times_hundred_at_most x :
  at_most 1 0 x ->
  exists y, mul_int x 100 = Ok y /\ at_most 25 2 y.
Proof.
  intros Hx. unfold mul_int.
  change (of_int 100) with (Ok (S754_finite false 7036874417766400 (-46))).
  cbn [bind]. eexists; split; [reflexivity|].
  destruct x as [[|]|[|]| |[|] m e]; try contradiction; [exact I|].
  apply at_most_one_finite in Hx as [He Hm].
  cbn [SFmul xorb].
  assert (Hemax : emax = 1024) by reflexivity.
  assert (Hprec : prec = 53) by reflexivity.
  pose proof (pow2_pos (- e) ltac:(lia)) as Hpow.
  assert (HM : Zpos (m * 7036874417766400) = Zpos m * (25 * 2 ^ 48)) by lia.
  assert (Hceil : ceiling_at (Zpos (m * 7036874417766400)) loc_Exact
                  <= 25 * 2 ^ (2 - (e + -46))).
  { unfold ceiling_at. rewrite HM.
    replace (2 - (e + -46)) with (48 + - e) by lia.
    rewrite Z.pow_add_r by lia. nia. }
  assert (Hlt : Zpos (m * 7036874417766400) < 2 ^ (53 + - e)).
  { rewrite HM, Z.pow_add_r by lia. change (2 ^ 53) with (32 * 2 ^ 48). nia. }
  pose proof (Zdigits2_le (Zpos (m * 7036874417766400)) (53 + - e)
                ltac:(lia) ltac:(lia) Hlt) as Hdig.
  pose proof (binary_round_aux_at_most false (Zpos (m * 7036874417766400))
                (e + -46) loc_Exact 25 2
                ltac:(lia) ltac:(lia) ltac:(unfold fexp, emin; lia) Hceil ltac:(lia)
                ltac:(rewrite Hemax; reflexivity)) as H.
  unfold at_most.
  destruct (binary_round_aux prec emax false _ (e + -46) loc_Exact)
    as [sg|sg| |sg m' e']; try contradiction.
  - now subst sg.
  - destruct H as [-> H]. exact H.
Qed.

Lemma round_half_even_bound num den B :
  0 <= num -> 0 < den -> 0 <= B -> num <= B * den ->
  0 <= round_half_even num den <= B.
Proof.
  intros Hnum Hden HB H. unfold round_half_even.
  pose proof (Z_div_mod_eq_full num den) as Hq.
  pose proof (Z.mod_pos_bound num den Hden) as Hr.
  assert (Hq0 : 0 <= num / den) by (apply Z.div_pos; lia).
  assert (HqB : num / den <= B) by nia.
  destruct (Z.eq_dec (num / den) B) as [E|E].
  - assert (Hr0 : num mod den = 0) by nia.
    rewrite Hr0. replace (2 * 0 ?= den) with Lt by (symmetry; apply Z.compare_lt_iff; lia).
    lia.
  - destruct (2 * (num mod den) ?= den); [destruct (Z.even (num / den))| |]; lia.
Qed.

(** The decimal digits of a float that is at most 100, with one place. *)
Lemma scaled_digits_bound m e :
  at_most 25 2 (S754_finite false m e) -> 0 <= scaled_digits 1 m e <= 1000.
Proof.
  unfold at_most, scaled_digits. intros H. change (10 ^ 1) with 10.
  destruct (0 <=? e) eqn:E0.
  - apply Z.leb_le in E0.
    destruct (Z_le_gt_dec e 2) as [Hle|Hgt].
    + replace (Z.min e 2) with e in H by lia. rewrite Z.sub_diag in H.
      change (2 ^ 0) with 1 in H.
      assert (e = 0 \/ e = 1 \/ e = 2) as [-> | [-> | ->]] by lia;
        cbn in H |- *; lia.
    + replace (Z.min e 2) with 2 in H by lia. rewrite Z.sub_diag in H.
      change (2 ^ 0) with 1 in H.
      replace e with (2 + (e - 2)) by lia. rewrite Z.pow_add_r by lia.
      change (2 ^ 2) with 4.
      pose proof (pow2_pos (e - 2) ltac:(lia)). nia.
  - apply Z.leb_gt in E0.
    replace (Z.min e 2) with e in H by lia. rewrite Z.sub_diag in H.
    change (2 ^ 0) with 1 in H.
    replace (2 - e) with (2 + - e) in H by lia. rewrite Z.pow_add_r in H by lia.
    change (2 ^ 2) with 4 in H.
    pose proof (pow2_pos (- e) ltac:(lia)).
    apply round_half_even_bound; lia.
Qed.

Lemma rounds_in_range_all q : 0 <= q <= 1000 -> rounds_in_range q = true.
Proof.
  intros Hq.
  assert (Hall : forallb (fun n => rounds_in_range (Z.of_nat n)) (seq 0 1001) = true)
    by (vm_compute; reflexivity).
  rewrite forallb_forall in Hall.
  specialize (Hall (Z.to_nat q)). rewrite Z2Nat.id in Hall by lia.
  apply Hall. apply in_seq. lia.
Qed.

Lemma float_in_range_percentage x :
  float_in_range x = true -> percentage_in_range (VFloat x).
Proof.
  unfold float_in_range, percentage_in_range.
  rewrite !andb_true_iff, !Qle_bool_iff. tauto.
Qed.

(** Rounding to one place keeps a float that is at most 100 between 0
    and 100. *)
Lemma round_one_place_in_range y :
  at_most 25 2 y ->
  exists z, round y 1 = Ok z /\ percentage_in_range (VFloat z).
Proof.
  intros Hy. destruct y as [[|]|[|]| |[|] m e]; try contradiction.
  - eexists; split; [reflexivity|]. apply float_in_range_percentage. reflexivity.
  - pose proof (rounds_in_range_all _ (scaled_digits_bound m e Hy)) as H.
    unfold rounds_in_range in H. unfold round. change (10 ^ 1) with 10.
    destruct (nearest_quotient false (scaled_digits 1 m e) 10) as [sg|sg| |sg m' e'];
      try discriminate H;
      (eexists; split; [reflexivity | apply float_in_range_percentage; exact H]).
Qed.

(** The percentage of the summary for a count that is at most the number
    of successes: it is computed without an exception, lies between 0 and
    100, and is the integer 0 when nothing succeeded. *)
Lemma rounded_percentage_in_range count successful :
  0 <= count <= successful ->
  exists p,
    rounded_percentage count successful = Ok p
    /\ percentage_in_range p
    /\ (successful = 0 -> p = VInt 0).
Proof.
  intros H. unfold rounded_percentage.
  destruct (0 <? successful) eqn:E.
  - apply Z.ltb_lt in E.
    unfold int_true_div.
    replace (successful =? 0) with false by (symmetry; apply Z.eqb_neq; lia).
    replace (count <? 0) with false by (symmetry; apply Z.ltb_ge; lia).
    replace (successful <? 0) with false by (symmetry; apply Z.ltb_ge; lia).
    rewrite !Z.abs_eq by lia. cbn [xorb].
    pose proof (nearest_quotient_at_most_one count successful H E) as Hx.
    destruct (nearest_quotient false count successful) as [sg|sg| |sg m e] eqn:Ex;
      try contradiction; cbn [bind];
      (destruct (times_hundred_at_most _ Hx) as [y [-> Hy]]; cbn [bind py_round];
       destruct (round_one_place_in_range y Hy) as [z [-> Hz]]; cbn [bind];
       eexists; split; [reflexivity | split; [exact Hz | lia]]).
  - cbn [bind py_round]. eexists; split; [reflexivity|].
    split; [cbn; lia | reflexivity].
Qed.
End Percentages.

(** C3, as the specification writes the formula, fails: of eighty
    successes, twenty-three in cluster 0, the summary reports the float
    28.7, for [23 / 80 * 100] is a float just below 28.75, while
    [round(100 * 23 / 80, 1)] is the float 28.8. *)
Lemma percentage_differs_from_spec_formula :
  exists d,
    get_cluster_batch env_without_model still_clock eighty_batch = Ok d
    /\ summary_field d "successful_predictions" = Some (VInt 80)
    /\ cluster_stat d 0 "count" = Some (VInt 23)
    /\ cluster_stat d 0 "percentage"
       = Some (VFloat (PyFloat.nearest_quotient false 287 10))
    /\ spec_percentage 23 80 = Ok (VFloat (PyFloat.nearest_quotient false 288 10))
    /\ PyFloat.nearest_quotient false 287 10 <> PyFloat.nearest_quotient false 288 10.
Proof.
  eexists. split; [vm_compute; reflexivity|].
  split_all; try (vm_compute; reflexivity). vm_compute. discriminate.
Qed.

(** C3, amended. In the summary of a batch with schools, the successes
    and the failures add up to the number of schools; the three cluster
    counts add up to the successes; each percentage is
    [round(count / successful * 100, 1)] as binary64 arithmetic computes
    it in that order, lies between 0 and 100, and is the integer 0 when
    nothing succeeded. *)
Theorem batch_summary_invariants (env : Env) (clock : Clock) (batch : BatchRequest)
    (d : dict) :
  schools batch <> [] ->
  get_cluster_batch env clock batch = Ok d ->
  exists rs p0 p1 p2,
    field d "results" = Some (VList rs)
    /\ List.length rs = List.length (schools batch)
    /\ summary_field d "total_schools"
       = Some (VInt (Z.of_nat (List.length (schools batch))))
    /\ summary_field d "successful_predictions" = Some (VInt (count_of is_success rs))
    /\ summary_field d "failed_predictions" = Some (VInt (count_of is_failure rs))
    /\ count_of is_success rs + count_of is_failure rs
       = Z.of_nat (List.length (schools batch))
    /\ cluster_stat d 0 "count" = Some (VInt (count_of (in_cluster 0) rs))
    /\ cluster_stat d 1 "count" = Some (VInt (count_of (in_cluster 1) rs))
    /\ cluster_stat d 2 "count" = Some (VInt (count_of (in_cluster 2) rs))
    /\ count_of (in_cluster 0) rs + count_of (in_cluster 1) rs
       + count_of (in_cluster 2) rs = count_of is_success rs
    /\ cluster_stat d 0 "percentage" = Some p0
    /\ cluster_stat d 1 "percentage" = Some p1
    /\ cluster_stat d 2 "percentage" = Some p2
    /\ rounded_percentage (count_of (in_cluster 0) rs) (count_of is_success rs) = Ok p0
    /\ rounded_percentage (count_of (in_cluster 1) rs) (count_of is_success rs) = Ok p1
    /\ rounded_percentage (count_of (in_cluster 2) rs) (count_of is_success rs) = Ok p2
    /\ percentage_in_range p0 /\ percentage_in_range p1 /\ percentage_in_range p2
    /\ (count_of is_success rs = 0 -> p0 = VInt 0 /\ p1 = VInt 0 /\ p2 = VInt 0).
Proof.
  intros Hne H.
  destruct (get_cluster_batch_inv _ _ _ _ Hne H)
    as (rs & n0 & n1 & n2 & p0 & p1 & p2 & seconds & dom & Hall & -> & -> & ->
        & Hsum & Hp0 & Hp1 & Hp2 & _ & _ & ->).
  pose proof (Forall2_length Hall) as Hlen.
  pose proof (count_of_split rs) as Hsplit.
  pose proof (count_of_nonneg (in_cluster 0) rs).
  pose proof (count_of_nonneg (in_cluster 1) rs).
  pose proof (count_of_nonneg (in_cluster 2) rs).
  destruct (rounded_percentage_in_range (count_of (in_cluster 0) rs)
              (count_of is_success rs) ltac:(lia)) as [q0 [Hq0 [Hr0 Hz0]]].
  destruct (rounded_percentage_in_range (count_of (in_cluster 1) rs)
              (count_of is_success rs) ltac:(lia)) as [q1 [Hq1 [Hr1 Hz1]]].
  destruct (rounded_percentage_in_range (count_of (in_cluster 2) rs)
              (count_of is_success rs) ltac:(lia)) as [q2 [Hq2 [Hr2 Hz2]]].
  rewrite Hp0 in Hq0. rewrite Hp1 in Hq1. rewrite Hp2 in Hq2.
  injection Hq0 as <-. injection Hq1 as <-. injection Hq2 as <-.
  exists rs, p0, p1, p2.
  split_all; try reflexivity; try assumption; try lia; auto.
  - cbn. rewrite Hlen. reflexivity.
  - cbn. do 2 f_equal. lia.
Qed.

Lemma batch_summary_invariants_witness :
  schools tie_batch <> []
  /\ exists d,
       get_cluster_batch env_without_model still_clock tie_batch = Ok d
       /\ summary_field d "total_schools" = Some (VInt 4)
       /\ summary_field d "successful_predictions" = Some (VInt 4)
       /\ summary_field d "failed_predictions" = Some (VInt 0)
       /\ cluster_stat d 0 "percentage"
          = Some (VFloat (PyFloat.nearest_quotient false 500 10))
       /\ cluster_stat d 2 "percentage" = Some (VFloat (S754_zero false))
       /\ exists rs p0 p1 p2,
            field d "results" = Some (VList rs)
            /\ List.length rs = List.length (schools tie_batch)
            /\ summary_field d "total_schools"
               = Some (VInt (Z.of_nat (List.length (schools tie_batch))))
            /\ summary_field d "successful_predictions"
               = Some (VInt (count_of is_success rs))
            /\ summary_field d "failed_predictions"
               = Some (VInt (count_of is_failure rs))
            /\ count_of is_success rs + count_of is_failure rs
               = Z.of_nat (List.length (schools tie_batch))
            /\ cluster_stat d 0 "count" = Some (VInt (count_of (in_cluster 0) rs))
            /\ cluster_stat d 1 "count" = Some (VInt (count_of (in_cluster 1) rs))
            /\ cluster_stat d 2 "count" = Some (VInt (count_of (in_cluster 2) rs))
            /\ count_of (in_cluster 0) rs + count_of (in_cluster 1) rs
               + count_of (in_cluster 2) rs = count_of is_success rs
            /\ cluster_stat d 0 "percentage" = Some p0
            /\ cluster_stat d 1 "percentage" = Some p1
            /\ cluster_stat d 2 "percentage" = Some p2
            /\ rounded_percentage (count_of (in_cluster 0) rs)
                 (count_of is_success rs) = Ok p0
            /\ rounded_percentage (count_of (in_cluster 1) rs)
                 (count_of is_success rs) = Ok p1
            /\ rounded_percentage (count_of (in_cluster 2) rs)
                 (count_of is_success rs) = Ok p2
            /\ percentage_in_range p0 /\ percentage_in_range p1
            /\ percentage_in_range p2
            /\ (count_of is_success rs = 0 ->
                p0 = VInt 0 /\ p1 = VInt 0 /\ p2 = VInt 0).
Proof.
  split; [discriminate|].
  eexists. split; [vm_compute; reflexivity|].
  do 5 (split; [vm_compute; reflexivity|]).
  apply (batch_summary_invariants env_without_model still_clock tie_batch);
    [discriminate | vm_compute; reflexivity].
Defined.

(** ** When the batch returns *)

Section Returns.
Import PyFloat.

Lemma digits2_pos_upper p : Zpos p < 2 ^ Zpos (digits2_pos p).
Proof.
  induction p as [p IH | p IH |]; cbn [digits2_pos]; [| |cbn; lia];
    rewrite Pos2Z.inj_succ, Z.pow_succ_r by lia; lia.
Qed.

Lemma valid_binary_finite s m e :
  valid_binary prec emax (S754_finite s m e) = true ->
  Zpos m < 2 ^ prec /\ e <= emax - prec.
Proof.
  cbn [valid_binary]. unfold bounded, canonical_mantissa.
  rewrite andb_true_iff, Z.eqb_eq, Z.leb_le. intros [Hc He]. split; [|exact He].
  pose proof (digits2_pos_upper m) as Hu.
  assert (Hd : Zpos (digits2_pos m) <= prec) by (unfold fexp in Hc; lia).
  pose proof (Z.pow_le_mono_r 2 _ _ ltac:(lia) Hd). lia.
Qed.

(** Rounding a binary64 number to a number of places that is not negative
    raises nothing. *)
Lemma round_returns x ndigits :
  valid_binary prec emax x = true -> 0 <= ndigits ->
  exists y, round x ndigits = Ok y.
Proof.
  intros Hx Hn. destruct x as [s|s| |s m e]; try (eexists; reflexivity).
  apply valid_binary_finite in Hx as [Hm He].
  assert (Hemax : emax = 1024) by reflexivity.
  assert (Hprec : prec = 53) by reflexivity.
  assert (Hten : 0 < 10 ^ ndigits) by (apply Z.pow_pos_nonneg; lia).
  assert (Hbound : exists k, 0 <= k <= emax - prec
                             /\ 0 <= scaled_digits ndigits m e
                             /\ scaled_digits ndigits m e
                                <= (2 ^ prec - 1) * 2 ^ k * 10 ^ ndigits).
  { unfold scaled_digits. destruct (0 <=? e) eqn:E.
    - apply Z.leb_le in E. exists e.
      pose proof (pow2_pos e E). split; [lia|]. split; nia.
    - apply Z.leb_gt in E. exists 0. split; [lia|].
      pose proof (pow2_pos (- e) ltac:(lia)) as Hp.
      pose proof (round_half_even_bound (Zpos m * 10 ^ ndigits) (2 ^ (- e))
                    (Zpos m * 10 ^ ndigits) ltac:(nia) Hp ltac:(nia) ltac:(nia)) as Hr.
      change (2 ^ 0) with 1. split; nia. }
  destruct Hbound as [k [Hk [Hq0 Hq]]].
  assert (HK : 2 ^ prec - 1 < 2 ^ (emax - k)).
  { pose proof (Z.pow_le_mono_r 2 prec (emax - k) ltac:(lia) ltac:(lia)). lia. }
  pose proof (nearest_quotient_bounded s _ _ (2 ^ prec - 1) k Hq0 Hten Hk
                ltac:(lia) HK Hq) as H.
  unfold round.
  destruct (nearest_quotient s (scaled_digits ndigits m e) (10 ^ ndigits));
    try contradiction; eexists; reflexivity.
Qed.

(** With a model that yields ids of the table only, every response is a
    success for one of the three clusters. *)
Lemma predict_single_in_table env now school :
  yields_table_ids env ->
  exists c mu n,
    0 <= c <= 2
    /\ predict_single env now school =
       Ok [ ("school", VStr (PyStr.or_default (name school) "Unknown"));
            ("municipality", VStr (PyStr.or_default (municipality school) "Unknown"));
            ("cluster_id", VInt c);
            ("cluster_name", VStr n);
            ("cluster_color", VStr (table_color (c mod 3)));
            ("model_used", VStr mu);
            ("success", VBool true);
            ("timestamp", VFloat now) ].
Proof.
  intros Henv. unfold predict_single.
  assert (Hchoice : exists c mu,
            (if MODEL_LOADED env
             then match ml_cluster env (cleaned_input school) with
                  | Ok c => (c, "ml")
                  | Raise _ => predict_single_rule school
                  end
             else predict_single_rule school) = (c, mu) /\ 0 <= c <= 2).
  { rule_cluster school c Hc Hr.
    destruct (MODEL_LOADED env) eqn:Hflag; [|now exists c, "rule_based"].
    destruct (ml_cluster env (cleaned_input school)) as [c'|e] eqn:Hml;
      [|now exists c, "rule_based"].
    exists c', "ml". split; [reflexivity|]. exact (Henv Hflag _ _ Hml). }
  destruct Hchoice as [c [mu [Hc Hr]]].
  exists c, mu, (table_name c). split; [exact Hr|].
  now rewrite (predict_single_found env now school c mu (table_name c) Hc
                 (get_cluster_name_table c Hr)).
Qed.

Lemma batch_loop_returns env clock : yields_table_ids env ->
  forall todo i st, tallied st -> exists st', batch_loop env clock i todo st = Ok st'.
Proof.
  intros Henv. induction todo as [|school todo IH]; intros i st Ht.
  - now exists st.
  - cbn [batch_loop].
    assert (Hbody : exists st1, loop_body env (at_school clock i) st school = Ok st1).
    { unfold loop_body.
      destruct (predict_single_in_table env (at_school clock i) school Henv)
        as [c [mu [n [Hc ->]]]].
      cbn [bind].
      change (PyDict.item _ "success") with (Ok (VBool true)).
      cbn [bind truthy].
      change (PyDict.item _ "cluster_id") with (Ok (VInt c)).
      cbn [bind]. destruct Ht as [-> _]. unfold PyDict.increment.
      assert (c = 0 \/ c = 1 \/ c = 2) as [-> | [-> | ->]] by lia;
        eexists; reflexivity. }
    destruct Hbody as [st1 Hbody]. rewrite Hbody. cbn [bind].
    apply IH. exact (proj1 (loop_body_tallied _ _ _ _ _ Hbody Ht)).
Qed.

(** A batch request returns a response, whatever the schools, when the
    model is not loaded or yields ids of the table only. *)
Lemma get_cluster_batch_returns env clock batch :
  yields_table_ids env -> elapsed_is_binary64 clock ->
  exists d, get_cluster_batch env clock batch = Ok d.
Proof.
  intros Henv Hclock. unfold get_cluster_batch.
  destruct (schools batch) as [|school todo] eqn:Hs; [eexists; reflexivity|].
  destruct (batch_loop_returns env clock Henv (school :: todo) O initial_state
              initial_state_tallied) as [st Hloop].
  rewrite Hloop. cbn [bind].
  destruct (batch_loop_tallied _ _ _ _ _ _ Hloop initial_state_tallied)
    as [[Hcounts [Hsucc Hsum]] _].
  rewrite Hcounts.
  set (n0 := count_of (in_cluster 0) (results st)) in *.
  set (n1 := count_of (in_cluster 1) (results st)) in *.
  set (n2 := count_of (in_cluster 2) (results st)) in *.
  assert (H0 : 0 <= n0) by apply count_of_nonneg.
  assert (H1 : 0 <= n1) by apply count_of_nonneg.
  assert (H2 : 0 <= n2) by apply count_of_nonneg.
  cbn [percentages_loop PyDict.get_or_zero PyDict.get Z.eqb Pos.eqb].
  destruct (rounded_percentage_in_range n0 (successful st) ltac:(lia)) as [p0 [-> _]].
  cbn [bind].
  destruct (rounded_percentage_in_range n1 (successful st) ltac:(lia)) as [p1 [-> _]].
  cbn [bind].
  destruct (rounded_percentage_in_range n2 (successful st) ltac:(lia)) as [p2 [-> _]].
  cbn [bind PyDict.set Z.eqb Pos.eqb PyDict.max_by_value].
  destruct (round_returns _ 3 Hclock ltac:(lia)) as [seconds Hsec].
  cbn [py_round]. rewrite Hsec. cbn [bind].
  unfold summary_entry.
  change (get_cluster_name 0) with (@Ok string "Inabanga  Schools").
  change (get_cluster_name 1) with (@Ok string "Clarin Schools").
  change (get_cluster_name 2) with (@Ok string "Tubigon  Schools").
  change (get_cluster_color 0) with (@Ok string "#0088FE").
  change (get_cluster_color 1) with (@Ok string "#00C49F").
  change (get_cluster_color 2) with (@Ok string "#FFBB28").
  cbn [bind].
  rewrite get_cluster_name_table; [eexists; reflexivity|].
  destruct (max_scan_three n0 n1 n2) as [[-> _] | [[-> _] | [-> _]]]; lia.
Qed.
End Returns.

(** ** Start-up *)


(** ** The test endpoint *)

Lemma predict_single_returns env now school :
  exists d, predict_single env now school = Ok d.
Proof.
  destruct (predict_single_shapes env now school)
    as [(c & mu & n & _ & _ & _ & _ & H) | (c & e & _ & _ & _ & _ & _ & H)];
    rewrite H; eexists; reflexivity.
Qed.

Lemma predict_single_without_model env now school :
  MODEL_LOADED env = false ->
  exists d, predict_single env now school = Ok d
            /\ field d "cluster_id" = Some (VInt (fst (predict_single_rule school)))
            /\ field d "model_used" = Some (VStr "rule_based")
            /\ field d "success" = Some (VBool true).
Proof.
  intros Hflag. rule_cluster school c Hc Hr.
  pose proof (predict_single_found env now school c "rule_based" (table_name c)) as H.
  rewrite Hflag in H. unfold predict_single.
  rewrite (H Hc (get_cluster_name_table c Hr)), Hc.
  eexists. repeat split.
Qed.

(** X2. [GET /test] returns for every environment, whatever the model
    yields: its [test_results] are the responses of [predict_single] for
    the four sample schools, in their order, and [model_status] follows
    the flag. Without a model the four cluster ids are 1, 2, 0, 1. *)
Theorem test_endpoint_returns (env : Env) (now : nat -> spec_float) :
  exists r0 r1 r2 r3,
    test_endpoint env now
    = Ok [ ("test_results", VList [VDict r0; VDict r1; VDict r2; VDict r3]);
           ("model_status",
            VStr (if MODEL_LOADED env then "loaded" else "rule_based_fallback"));
           ("message", VStr "Test completed successfully") ]
    /\ Forall2 (fun i_school r =>
                  predict_single env (now (fst i_school)) (snd i_school) = Ok r)
         (combine [0; 1; 2; 3]%nat test_schools) [r0; r1; r2; r3]
    /\ (MODEL_LOADED env = false ->
        map (fun r => field r "cluster_id") [r0; r1; r2; r3]
        = [Some (VInt 1); Some (VInt 2); Some (VInt 0); Some (VInt 1)]).
Proof.
  unfold test_endpoint, test_schools. cbn [test_loop].
  match goal with |- context [predict_single env (now 0%nat) ?s] =>
    destruct (predict_single_returns env (now 0%nat) s) as [r0 H0];
    pose proof (predict_single_without_model env (now 0%nat) s) as W0 end.
  match goal with |- context [predict_single env (now 1%nat) ?s] =>
    destruct (predict_single_returns env (now 1%nat) s) as [r1 H1];
    pose proof (predict_single_without_model env (now 1%nat) s) as W1 end.
  match goal with |- context [predict_single env (now 2%nat) ?s] =>
    destruct (predict_single_returns env (now 2%nat) s) as [r2 H2];
    pose proof (predict_single_without_model env (now 2%nat) s) as W2 end.
  match goal with |- context [predict_single env (now 3%nat) ?s] =>
    destruct (predict_single_returns env (now 3%nat) s) as [r3 H3];
    pose proof (predict_single_without_model env (now 3%nat) s) as W3 end.
  exists r0, r1, r2, r3. rewrite H0. cbn [bind app]. rewrite H1. cbn [bind app].
  rewrite H2. cbn [bind app]. rewrite H3. cbn [bind app].
  split; [reflexivity|]. split.
  - cbn [combine]. repeat constructor; assumption.
  - intros Hflag.
    destruct (W0 Hflag) as (d0 & E0 & C0 & _).
    destruct (W1 Hflag) as (d1 & E1 & C1 & _).
    destruct (W2 Hflag) as (d2 & E2 & C2 & _).
    destruct (W3 Hflag) as (d3 & E3 & C3 & _).
    rewrite H0 in E0. rewrite H1 in E1. rewrite H2 in E2. rewrite H3 in E3.
    injection E0 as <-. injection E1 as <-. injection E2 as <-. injection E3 as <-.
    cbn [map]. rewrite C0, C1, C2, C3. reflexivity.
Qed.

(** ** More on the batch *)

Lemma batch_loop_in_order env clock : forall todo i st st',
  batch_loop env clock i todo st = Ok st' -> tallied st ->
  exists new,
    results st' = (results st ++ new)%list
    /\ List.length new = List.length todo
    /\ forall j school,
         nth_error todo j = Some school ->
         exists r, get_cluster env (at_school clock (i + j)) school = Ok r
                   /\ nth_error new j = Some (VDict r).
Proof.
  induction todo as [|school todo IH]; intros i st st' H Ht.
  - injection H as <-. exists []. split; [now rewrite app_nil_r|].
    split; [reflexivity|]. intros [|j] s Hs; discriminate.
  - cbn [batch_loop] in H.
    destruct (loop_body env (at_school clock i) st school) as [st1|] eqn:Hbody;
      [|discriminate].
    cbn [bind] in H.
    destruct (loop_body_tallied _ _ _ _ _ Hbody Ht) as [Ht1 [d [Hd Hr1]]].
    destruct (IH _ _ _ H Ht1) as (new & Hr' & Hlen & Hnth).
    exists (VDict d :: new). split; [rewrite Hr', Hr1, <- app_assoc; reflexivity|].
    split; [cbn [List.length]; now rewrite Hlen|].
    intros [|j] s Hs.
    + injection Hs as <-. exists d. rewrite Nat.add_0_r. unfold get_cluster.
      rewrite Hd. split; reflexivity.
    + cbn [nth_error] in Hs. destruct (Hnth j s Hs) as (r & Hr & Hj).
      exists r. replace (i + S j)%nat with (S i + j)%nat by lia. split; assumption.
Qed.

(** X3. The batch endpoint and the single endpoint agree: in a batch
    response there is one result per school, and the result at position
    [i] is the response of [get_cluster] for the school at position [i],
    with the clock as it stood then. *)
Theorem batch_results_in_order (env : Env) (clock : Clock) (batch : BatchRequest)
    (d : dict) :
  schools batch <> [] ->
  get_cluster_batch env clock batch = Ok d ->
  exists rs,
    field d "results" = Some (VList rs)
    /\ List.length rs = List.length (schools batch)
    /\ forall i school,
         nth_error (schools batch) i = Some school ->
         exists r, get_cluster env (at_school clock i) school = Ok r
                   /\ nth_error rs i = Some (VDict r).
Proof.
  intros Hne H. unfold get_cluster_batch in H.
  destruct (schools batch) as [|school todo] eqn:Hs; [congruence|].
  destruct (batch_loop env clock 0 (school :: todo) initial_state) as [st|] eqn:Hloop;
    [|discriminate].
  destruct (batch_loop_in_order _ _ _ _ _ _ Hloop initial_state_tallied)
    as (new & Hnew & Hlen & Hnth).
  cbn [results initial_state app] in Hnew.
  destruct (batch_loop_tallied _ _ _ _ _ _ Hloop initial_state_tallied)
    as [[Hcounts [Hsucc _]] _].
  cbn [bind] in H. rewrite Hcounts in H.
  cbn [percentages_loop PyDict.get_or_zero PyDict.get Z.eqb Pos.eqb] in H.
  destruct (rounded_percentage _ _) as [q0|]; [|discriminate]. cbn [bind] in H.
  destruct (rounded_percentage _ _) as [q1|]; [|discriminate]. cbn [bind] in H.
  destruct (rounded_percentage _ _) as [q2|]; [|discriminate].
  cbn [bind PyDict.set Z.eqb Pos.eqb PyDict.max_by_value] in H.
  destruct (py_round _ 3) as [sec|]; [|discriminate]. cbn [bind] in H.
  destruct (summary_entry _ _ 0) as [c0|]; [|discriminate]. cbn [bind] in H.
  destruct (summary_entry _ _ 1) as [c1|]; [|discriminate]. cbn [bind] in H.
  destruct (summary_entry _ _ 2) as [c2|]; [|discriminate]. cbn [bind] in H.
  destruct (get_cluster_name _) as [dn|]; [|discriminate]. cbn [bind] in H.
  injection H as <-. exists (results st). split; [reflexivity|].
  rewrite Hnew. split; [exact Hlen | exact Hnth].
Qed.

Lemma batch_results_in_order_witness :
  schools tie_batch <> []
  /\ exists d,
       get_cluster_batch env_without_model still_clock tie_batch = Ok d
       /\ exists rs,
            field d "results" = Some (VList rs)
            /\ List.length rs = List.length (schools tie_batch)
            /\ forall i school,
                 nth_error (schools tie_batch) i = Some school ->
                 exists r,
                   get_cluster env_without_model (at_school still_clock i) school = Ok r
                   /\ nth_error rs i = Some (VDict r).
Proof.
  split; [discriminate|].
  eexists. split; [vm_compute; reflexivity|].
  apply (batch_results_in_order env_without_model still_clock tie_batch);
    [discriminate | vm_compute; reflexivity].
Defined.

(** The response of [predict_single] in terms of the cluster that the
    [try] body chose. *)
Lemma predict_single_chosen env now school :
  (exists n,
     get_cluster_name (fst (chosen env school)) = Ok n
     /\ predict_single env now school =
        Ok [ ("school", VStr (PyStr.or_default (name school) "Unknown"));
             ("municipality", VStr (PyStr.or_default (municipality school) "Unknown"));
             ("cluster_id", VInt (fst (chosen env school)));
             ("cluster_name", VStr n);
             ("cluster_color", VStr (table_color (fst (chosen env school) mod 3)));
             ("model_used", VStr (snd (chosen env school)));
             ("success", VBool true);
             ("timestamp", VFloat now) ])
  \/ (exists e,
        get_cluster_name (fst (chosen env school)) = Raise e
        /\ predict_single env now school =
           Ok [ ("school", VStr (PyStr.or_default (name school) "Unknown"));
                ("municipality", VStr (PyStr.or_default (municipality school) "Unknown"));
                ("error", VStr (exn_str e));
                ("success", VBool false);
                ("model_used", VStr "error") ]).
Proof.
  destruct (chosen env school) as [c mu] eqn:Hc. cbn [fst snd].
  unfold chosen in Hc. unfold predict_single.
  destruct (has_name_or_not c) as [Hup|Hlow].
  - left. destruct (get_cluster_name_found c Hup) as [n [Hn _]].
    exists n. split; [exact Hn|].
    now rewrite (predict_single_found env now school c mu n Hc Hn).
  - right. destruct (get_cluster_name_lost c Hlow) as [e [Hn _]].
    exists e. split; [exact Hn|].
    now rewrite (predict_single_lost env now school c mu e Hc Hn).
Qed.

Lemma chosen_out_of_table env school :
  ~ (0 <= fst (chosen env school) <= 2) ->
  MODEL_LOADED env = true
  /\ ml_cluster env (cleaned_input school) = Ok (fst (chosen env school)).
Proof.
  unfold chosen. rule_cluster school c Hc Hr.
  destruct (MODEL_LOADED env); [|rewrite Hc; cbn [fst]; lia].
  destruct (ml_cluster env (cleaned_input school)) as [c'|e];
    [cbn [fst]; auto | rewrite Hc; cbn [fst]; lia].
Qed.

Lemma stray_chosen env school c :
  stray env school c -> chosen env school = (c, "ml").
Proof. intros (Hflag & Hml & _). unfold chosen. now rewrite Hflag, Hml. Qed.

Lemma stray_or_not env school :
  (exists c, stray env school c) \/ no_stray env school.
Proof.
  destruct (has_name_or_not (fst (chosen env school))) as [Hup|Hlow].
  - destruct (Z_le_gt_dec 0 (fst (chosen env school))) as [H0|H0];
      [destruct (Z_le_gt_dec (fst (chosen env school)) 2) as [H2|H2]|].
    + right. intros c Hs. rewrite (stray_chosen _ _ _ Hs) in H0, H2.
      destruct Hs as (_ & _ & _ & H). cbn [fst] in *. lia.
    + left. exists (fst (chosen env school)).
      destruct (chosen_out_of_table env school ltac:(lia)) as [Hf Hm].
      repeat split; try assumption; lia.
    + left. exists (fst (chosen env school)).
      destruct (chosen_out_of_table env school ltac:(lia)) as [Hf Hm].
      repeat split; try assumption; lia.
  - right. intros c Hs. rewrite (stray_chosen _ _ _ Hs) in Hlow.
    destruct Hs as (_ & _ & H & _). cbn [fst] in Hlow. lia.
Qed.

(** One iteration of the loop returns unless the id is a stray one, and
    then it raises the [KeyError] of that id. *)
Lemma loop_body_outcome env now st school :
  tallied st ->
  (no_stray env school -> exists st', loop_body env now st school = Ok st')
  /\ (forall c, stray env school c ->
      loop_body env now st school = Raise (KeyError (PyStr.of_int c))).
Proof.
  intros [Hcounts _]. unfold loop_body.
  destruct (predict_single_chosen env now school)
    as [(n & Hn & ->) | (e & Hlow & ->)];
    cbn [bind].
  - change (PyDict.item _ "success") with (Ok (VBool true)).
    cbn [bind truthy].
    change (PyDict.item _ "cluster_id") with (Ok (VInt (fst (chosen env school)))).
    cbn [bind]. rewrite Hcounts. unfold PyDict.increment. cbn [PyDict.get].
    assert (Hname : -3 <= fst (chosen env school) < PyStr.int_str_bound).
    { destruct (has_name_or_not (fst (chosen env school))) as [|Hl]; [assumption|].
      destruct (get_cluster_name_lost _ Hl) as [e [He _]].
      rewrite He in Hn. discriminate. }
    split.
    + intros Hno.
      destruct (Z_le_gt_dec 0 (fst (chosen env school))) as [H0|H0];
        [destruct (Z_le_gt_dec (fst (chosen env school)) 2) as [H2|H2]|].
      * assert (fst (chosen env school) = 0 \/ fst (chosen env school) = 1
                \/ fst (chosen env school) = 2) as [-> | [-> | ->]] by lia;
          eexists; reflexivity.
      * exfalso. destruct (chosen_out_of_table env school ltac:(lia)) as [Hf Hm].
        apply (Hno (fst (chosen env school))). repeat split; try assumption; lia.
      * exfalso. destruct (chosen_out_of_table env school ltac:(lia)) as [Hf Hm].
        apply (Hno (fst (chosen env school))). repeat split; try assumption; lia.
    + intros c Hs. rewrite (stray_chosen _ _ _ Hs). cbn [fst].
      destruct Hs as (_ & _ & _ & Hout).
      replace (c =? 0) with false by (symmetry; apply Z.eqb_neq; lia).
      replace (c =? 1) with false by (symmetry; apply Z.eqb_neq; lia).
      replace (c =? 2) with false by (symmetry; apply Z.eqb_neq; lia).
      reflexivity.
  - change (PyDict.item _ "success") with (Ok (VBool false)).
    cbn [bind truthy]. split; [intros _; eexists; reflexivity|].
    intros c Hs. rewrite (stray_chosen _ _ _ Hs) in Hlow. cbn [fst] in Hlow.
    destruct Hs as (_ & _ & H & _).
    destruct (get_cluster_name_found c H) as [n [Hn _]]. congruence.
Qed.

Lemma batch_loop_outcome env clock : forall todo i st,
  tallied st ->
  (Forall (no_stray env) todo -> exists st', batch_loop env clock i todo st = Ok st')
  /\ (forall e, batch_loop env clock i todo st = Raise e ->
      exists school c, In school todo /\ stray env school c
                       /\ e = KeyError (PyStr.of_int c))
  /\ (forall st', batch_loop env clock i todo st = Ok st' ->
      Forall (no_stray env) todo).
Proof.
  induction todo as [|school todo IH]; intros i st Ht.
  - split; [intros _; now exists st|]. split; [discriminate | constructor].
  - cbn [batch_loop].
    destruct (loop_body_outcome env (at_school clock i) st school Ht) as [Hok Hbad].
    destruct (stray_or_not env school) as [[c Hs] | Hno].
    + rewrite (Hbad c Hs). cbn [bind].
      split; [intros HF; inversion HF as [|? ? H1 _]; subst; destruct (H1 c Hs)|].
      split; [|discriminate].
      intros e He. injection He as <-. exists school, c.
      split; [left; reflexivity | split; [exact Hs | reflexivity]].
    + destruct (Hok Hno) as [st1 Hbody]. rewrite Hbody. cbn [bind].
      pose proof (proj1 (loop_body_tallied _ _ _ _ _ Hbody Ht)) as Ht1.
      destruct (IH (S i) st1 Ht1) as (IHok & IHbad & IHall).
      split; [intros HF; inversion HF; subst; auto|].
      split.
      * intros e He. destruct (IHbad e He) as (s & c & Hin & Hs & ->).
        exists s, c. split; [right; exact Hin | split; [exact Hs | reflexivity]].
      * intros st' H. constructor; [exact Hno | exact (IHall st' H)].
Qed.

(** After the loop, the rest of a batch request returns. *)
Lemma get_cluster_batch_after_loop env clock batch :
  schools batch <> [] ->
  (forall e, batch_loop env clock O (schools batch) initial_state = Raise e ->
             get_cluster_batch env clock batch = Raise e)
  /\ (forall st, batch_loop env clock O (schools batch) initial_state = Ok st ->
                 elapsed_is_binary64 clock ->
                 exists d, get_cluster_batch env clock batch = Ok d).
Proof.
  intros Hne. unfold get_cluster_batch.
  destruct (schools batch) as [|school todo] eqn:Hs; [congruence|].
  split; [intros e ->; reflexivity|].
  intros st Hloop Hclock. rewrite Hloop. cbn [bind].
  destruct (batch_loop_tallied _ _ _ _ _ _ Hloop initial_state_tallied)
    as [[Hcounts [Hsucc Hsum]] _].
  rewrite Hcounts.
  set (n0 := count_of (in_cluster 0) (results st)) in *.
  set (n1 := count_of (in_cluster 1) (results st)) in *.
  set (n2 := count_of (in_cluster 2) (results st)) in *.
  assert (H0 : 0 <= n0) by apply count_of_nonneg.
  assert (H1 : 0 <= n1) by apply count_of_nonneg.
  assert (H2 : 0 <= n2) by apply count_of_nonneg.
  cbn [percentages_loop PyDict.get_or_zero PyDict.get Z.eqb Pos.eqb].
  destruct (rounded_percentage_in_range n0 (successful st) ltac:(lia)) as [p0 [-> _]].
  cbn [bind].
  destruct (rounded_percentage_in_range n1 (successful st) ltac:(lia)) as [p1 [-> _]].
  cbn [bind].
  destruct (rounded_percentage_in_range n2 (successful st) ltac:(lia)) as [p2 [-> _]].
  cbn [bind PyDict.set Z.eqb Pos.eqb PyDict.max_by_value].
  destruct (round_returns _ 3 Hclock ltac:(lia)) as [seconds Hsec].
  cbn [py_round]. rewrite Hsec. cbn [bind].
  unfold summary_entry.
  change (get_cluster_name 0) with (@Ok string "Inabanga  Schools").
  change (get_cluster_name 1) with (@Ok string "Clarin Schools").
  change (get_cluster_name 2) with (@Ok string "Tubigon  Schools").
  change (get_cluster_color 0) with (@Ok string "#0088FE").
  change (get_cluster_color 1) with (@Ok string "#00C49F").
  change (get_cluster_color 2) with (@Ok string "#FFBB28").
  cbn [bind].
  rewrite get_cluster_name_table; [eexists; reflexivity|].
  destruct (max_scan_three n0 n1 n2) as [[-> _] | [[-> _] | [-> _]]]; lia.
Qed.

(** X4. A batch request returns exactly when the model yields for no
    school an id that has a name but no counter, that is, one from -3 on,
    of at most 4300 digits, that is not 0, 1 or 2. A record whose id is
    below -3, or has more than 4300 digits, is a failed record and stops
    nothing: the name lookup raises for it inside the [try] body of
    [predict_single]. When the request raises, it raises the [KeyError]
    of an id that has a name but no counter, and no response is returned
    for any school. *)
Theorem batch_returns_iff_no_stray_id (env : Env) (clock : Clock) (batch : BatchRequest) :
  elapsed_is_binary64 clock ->
  ((exists d, get_cluster_batch env clock batch = Ok d)
   <-> Forall (no_stray env) (schools batch))
  /\ (forall e, get_cluster_batch env clock batch = Raise e ->
      exists school c,
        In school (schools batch) /\ stray env school c
        /\ e = KeyError (PyStr.of_int c)).
Proof.
  intros Hclock.
  destruct (schools batch) as [|school todo] eqn:Hs.
  - unfold get_cluster_batch. rewrite Hs.
    split; [split; [constructor | eexists; reflexivity] | discriminate].
  - assert (Hne : schools batch <> []) by congruence.
    destruct (get_cluster_batch_after_loop env clock batch Hne) as [Hraise Hret].
    destruct (batch_loop_outcome env clock (schools batch) O initial_state
                initial_state_tallied) as (Hok & Hbad & Hall).
    rewrite <- Hs.
    destruct (batch_loop env clock 0 (schools batch) initial_state) as [st|e] eqn:Hloop.
    + split; [split; [intros _; exact (Hall st eq_refl) | intros _; eauto]|].
      intros e He. destruct (Hret st eq_refl Hclock) as [d Hd]. congruence.
    + rewrite (Hraise e eq_refl).
      split; [split; [intros [d Hd]; discriminate | intros HF]|].
      * destruct (Hok HF) as [st Hst]. discriminate.
      * intros e' He'. injection He' as <-. exact (Hbad e eq_refl).
Qed.

Lemma batch_returns_iff_no_stray_id_witness :
  elapsed_is_binary64 still_clock
  /\ ((exists d, get_cluster_batch (env_yielding 5) still_clock tie_batch = Ok d)
      <-> Forall (no_stray (env_yielding 5)) (schools tie_batch))
  /\ (forall e, get_cluster_batch (env_yielding 5) still_clock tie_batch = Raise e ->
      exists school c,
        In school (schools tie_batch) /\ stray (env_yielding 5) school c
        /\ e = KeyError (PyStr.of_int c)).
Proof.
  split; [reflexivity|].
  apply (batch_returns_iff_no_stray_id (env_yielding 5) still_clock tie_batch).
  reflexivity.
Defined.

(** On the far side: an id of 4301 digits has no name, so every record of
    the batch is a failed record and the request returns. *)
Lemma id_beyond_the_digit_limit_fails :
  PyStr.int_str_bound = 10 ^ 4300
  /\ predict_single (env_yielding PyStr.int_str_bound) (S754_zero false) test_school
     = Ok [ ("school", VStr "TEST SCHOOL");
            ("municipality", VStr "UNKNOWN LOCATION");
            ("error",
             VStr ("Exceeds the limit (4300 digits) for integer string conversion; "
                   ++ "use sys.set_int_max_str_digits() to increase the limit"));
            ("success", VBool false);
            ("model_used", VStr "error") ]
  /\ exists d,
       get_cluster_batch (env_yielding PyStr.int_str_bound) still_clock tie_batch = Ok d
       /\ summary_field d "successful_predictions" = Some (VInt 0)
       /\ summary_field d "failed_predictions" = Some (VInt 4).
Proof.
  split; [reflexivity|]. split; [vm_compute; reflexivity|].
  eexists. split; [vm_compute; reflexivity|]. split; reflexivity.
Qed.

(** X5. In the summary of a batch with schools, the dominant cluster has
    at least one success whenever any record succeeded; when none did,
    all counts are 0 and [dominant_cluster] is 0, with the name of
    cluster 0, so the summary names a dominant cluster that holds no
    school. *)
Theorem dominant_cluster_without_success (env : Env) (clock : Clock)
    (batch : BatchRequest) (d : dict) :
  schools batch <> [] ->
  get_cluster_batch env clock batch = Ok d ->
  exists rs dom,
    field d "results" = Some (VList rs)
    /\ summary_field d "successful_predictions" = Some (VInt (count_of is_success rs))
    /\ summary_field d "dominant_cluster" = Some (VInt dom)
    /\ summary_field d "dominant_cluster_name" = Some (VStr (table_name dom))
    /\ (0 < count_of is_success rs -> 0 < count_of (in_cluster dom) rs)
    /\ (count_of is_success rs = 0 ->
        dom = 0
        /\ cluster_stat d 0 "count" = Some (VInt 0)
        /\ cluster_stat d 1 "count" = Some (VInt 0)
        /\ cluster_stat d 2 "count" = Some (VInt 0)).
Proof.
  intros Hne H.
  destruct (get_cluster_batch_inv _ _ _ _ Hne H)
    as (rs & n0 & n1 & n2 & p0 & p1 & p2 & seconds & dom & _ & E0 & E1 & E2 & Hsum
        & _ & _ & _ & _ & Hdom & ->).
  pose proof (count_of_nonneg (in_cluster 0) rs).
  pose proof (count_of_nonneg (in_cluster 1) rs).
  pose proof (count_of_nonneg (in_cluster 2) rs).
  exists rs, dom. split_all; try reflexivity.
  - destruct (max_scan_three n0 n1 n2) as [[E ?] | [[E ?] | [E ?]]];
      rewrite <- Hdom in E; clear Hdom; subst dom; subst; lia.
  - destruct (max_scan_three n0 n1 n2) as [[E ?] | [[E ?] | [E ?]]];
      rewrite <- Hdom in E; clear Hdom; subst dom; subst; lia.
  - cbn. do 2 f_equal. lia.
  - cbn. do 2 f_equal. lia.
  - cbn. do 2 f_equal. lia.
Qed.

Lemma dominant_cluster_without_success_witness :
  schools tie_batch <> []
  /\ exists d,
       get_cluster_batch (env_yielding (-4)) still_clock tie_batch = Ok d
       /\ summary_field d "successful_predictions" = Some (VInt 0)
       /\ summary_field d "failed_predictions" = Some (VInt 4)
       /\ summary_field d "dominant_cluster_name" = Some (VStr "Inabanga  Schools")
       /\ exists rs dom,
            field d "results" = Some (VList rs)
            /\ summary_field d "successful_predictions"
               = Some (VInt (count_of is_success rs))
            /\ summary_field d "dominant_cluster" = Some (VInt dom)
            /\ summary_field d "dominant_cluster_name" = Some (VStr (table_name dom))
            /\ (0 < count_of is_success rs -> 0 < count_of (in_cluster dom) rs)
            /\ (count_of is_success rs = 0 ->
                dom = 0
                /\ cluster_stat d 0 "count" = Some (VInt 0)
                /\ cluster_stat d 1 "count" = Some (VInt 0)
                /\ cluster_stat d 2 "count" = Some (VInt 0)).
Proof.
  split; [discriminate|].
  eexists. split; [vm_compute; reflexivity|].
  do 3 (split; [reflexivity|]).
  apply (dominant_cluster_without_success (env_yielding (-4)) still_clock tie_batch);
    [discriminate | vm_compute; reflexivity].
Defined.

Lemma predict_single_after_failure env now school e :
  MODEL_LOADED env = true ->
  ml_cluster env (cleaned_input school) = Raise e ->
  exists d, predict_single env now school = Ok d
            /\ field d "cluster_id" = Some (VInt (fst (predict_single_rule school)))
            /\ field d "model_used" = Some (VStr "rule_based")
            /\ field d "success" = Some (VBool true).
Proof.
  intros Hflag Hml. rule_cluster school c Hc Hr.
  pose proof (predict_single_found env now school c "rule_based" (table_name c)) as H.
  rewrite Hflag, Hml in H. unfold predict_single.
  rewrite (H Hc (get_cluster_name_table c Hr)), Hc.
  eexists. repeat split.
Qed.

(** X6. The [model_used] of the summary is the flag, not what the records
    used: when the model is loaded and fails on every text, every result
    of the batch is a success tagged [rule_based] while the summary says
    [ml]; and the batch returns. *)
Theorem summary_model_used_is_the_flag (env : Env) (clock : Clock)
    (batch : BatchRequest) :
  MODEL_LOADED env = true ->
  (forall text, exists e, ml_cluster env text = Raise e) ->
  elapsed_is_binary64 clock ->
  schools batch <> [] ->
  exists d rs,
    get_cluster_batch env clock batch = Ok d
    /\ summary_field d "model_used" = Some (VStr "ml")
    /\ field d "results" = Some (VList rs)
    /\ summary_field d "failed_predictions" = Some (VInt 0)
    /\ forall v, In v rs ->
         exists r, v = VDict r
                   /\ field r "model_used" = Some (VStr "rule_based")
                   /\ field r "success" = Some (VBool true).
Proof.
  intros Hflag Hfail Hclock Hne.
  assert (Henv : yields_table_ids env).
  { intros _ text c Hc. destruct (Hfail text) as [e He]. congruence. }
  destruct (get_cluster_batch_returns env clock batch Henv Hclock) as [d H].
  destruct (get_cluster_batch_inv _ _ _ _ Hne H)
    as (rs & n0 & n1 & n2 & p0 & p1 & p2 & seconds & dom & Hall & _ & _ & _ & _
        & _ & _ & _ & _ & _ & Hd).
  assert (Hrs : forall v, In v rs ->
            exists r, v = VDict r
                      /\ field r "model_used" = Some (VStr "rule_based")
                      /\ field r "success" = Some (VBool true)).
  { intros v Hin.
    destruct (responses_in_results _ _ _ Hall _ Hin) as (school & now & r & Hr & ->).
    destruct (Hfail (cleaned_input school)) as [e He].
    destruct (predict_single_after_failure env now school e Hflag He)
      as (r' & Hr' & _ & Hm & Hs).
    rewrite Hr in Hr'. injection Hr' as <-. now exists r. }
  assert (Hcount : count_of is_success rs = Z.of_nat (List.length rs)).
  { clear - Hrs. unfold count_of. f_equal. induction rs as [|v rs IH]; [reflexivity|].
    cbn [filter]. destruct (Hrs v (or_introl eq_refl)) as (r & -> & _ & Hs).
    unfold is_success at 1. rewrite Hs. cbn [List.length]. f_equal.
    apply IH. intros w Hw. apply Hrs. now right. }
  exists d, rs. subst d.
  split; [exact H|]. split; [cbn; rewrite Hflag; reflexivity|].
  split; [reflexivity|].
  split; [cbn; do 2 f_equal; lia | exact Hrs].
Qed.

Lemma summary_model_used_is_the_flag_witness :
  MODEL_LOADED env_failing = true
  /\ (forall text, exists e, ml_cluster env_failing text = Raise e)
  /\ elapsed_is_binary64 still_clock
  /\ schools tie_batch <> []
  /\ exists d rs,
       get_cluster_batch env_failing still_clock tie_batch = Ok d
       /\ summary_field d "model_used" = Some (VStr "ml")
       /\ field d "results" = Some (VList rs)
       /\ summary_field d "failed_predictions" = Some (VInt 0)
       /\ forall v, In v rs ->
            exists r, v = VDict r
                      /\ field r "model_used" = Some (VStr "rule_based")
                      /\ field r "success" = Some (VBool true).
Proof.
  split; [reflexivity|].
  split; [intros text; eexists; reflexivity|].
  split; [reflexivity|]. split; [discriminate|].
  apply (summary_model_used_is_the_flag env_failing still_clock tie_batch);
    [reflexivity | intros text; eexists; reflexivity | reflexivity | discriminate].
Defined.

(** ** More on the text pipeline *)

Section TextFacts.
Import PyStr.

Ltac every_char c := destruct c as [[] [] [] [] [] [] [] []]; reflexivity.

Lemma lower_char_idempotent c : lower_char (lower_char c) = lower_char c.
Proof. every_char c. Qed.

Lemma lower_char_not_upper c : is_upper (lower_char c) = false.
Proof. every_char c. Qed.

Lemma lower_app a b : lower (a ++ b) = lower a ++ lower b.
Proof. induction a as [|c a IH]; [reflexivity | cbn; now rewrite IH]. Qed.

Lemma lower_idempotent s : lower (lower s) = lower s.
Proof.
  induction s as [|c s IH]; [reflexivity|].
  cbn [lower]. now rewrite lower_char_idempotent, IH.
Qed.

Lemma lower_length s : String.length (lower s) = String.length s.
Proof. induction s as [|c s IH]; [reflexivity | cbn; now rewrite IH]. Qed.

Lemma remove_unkept_app a b :
  remove_unkept (a ++ b) = remove_unkept a ++ remove_unkept b.
Proof.
  induction a as [|c a IH]; [reflexivity|].
  cbn [append remove_unkept]. destruct (is_kept c); cbn [append]; now rewrite IH.
Qed.

Lemma remove_unkept_length s : (String.length (remove_unkept s) <= String.length s)%nat.
Proof.
  induction s as [|c s IH]; [reflexivity|].
  cbn [remove_unkept]. destruct (is_kept c); cbn [String.length]; lia.
Qed.

Lemma collapse_from_length b s :
  (String.length (collapse_from b s) <= String.length s)%nat.
Proof.
  revert b. induction s as [|c s IH]; intros b; [reflexivity|].
  cbn [collapse_from]. destruct (is_space c); [destruct b|]; cbn [String.length];
    match goal with |- context [collapse_from ?x s] => specialize (IH x) end; lia.
Qed.

(** Two spaces in a row collapse as one does. *)
Lemma collapse_from_two_spaces a b r :
  collapse_from r (a ++ "  " ++ b) = collapse_from r (a ++ " " ++ b).
Proof.
  revert r. induction a as [|c a IH]; intros r.
  - destruct r; reflexivity.
  - cbn [append collapse_from]. destruct (is_space c); [destruct r|]; now rewrite IH.
Qed.

Lemma drop_app_length a b : drop (String.length a) (a ++ b) = b.
Proof. induction a as [|c a IH]; [reflexivity | exact IH]. Qed.

Lemma append_length a b :
  String.length (a ++ b) = (String.length a + String.length b)%nat.
Proof. induction a as [|c a IH]; [reflexivity | cbn; now rewrite IH]. Qed.

(** A replacement by a string that is not longer makes no text longer. *)
Lemma replace_scan_length o old new :
  (String.length new <= String.length (String o old))%nat ->
  forall n s, (String.length s <= n)%nat ->
  (String.length (replace_scan (String o old) new 0 s) <= String.length s)%nat.
Proof.
  intros Hnew. induction n as [|n IH]; intros s Hlen.
  - destruct s; [reflexivity | cbn in Hlen; lia].
  - destruct s as [|c s]; [reflexivity|].
    rewrite replace_scan_cons.
    destruct (prefix (String o old) (String c s)) eqn:Hp.
    + apply prefix_app in Hp as [post Hpost]. cbn [append] in Hpost.
      injection Hpost as -> ->.
      change (String.length (String o old) - 1)%nat with (String.length old - 0)%nat.
      rewrite Nat.sub_0_r, drop_app_length, append_length.
      cbn [String.length] in *. rewrite append_length in *.
      specialize (IH post ltac:(lia)). lia.
    + cbn [String.length] in *. specialize (IH s ltac:(lia)). lia.
Qed.

Lemma lstrip_length s : (String.length (lstrip s) <= String.length s)%nat.
Proof.
  induction s as [|c s IH]; [reflexivity|].
  cbn [lstrip]. destruct (is_space c); cbn [String.length]; lia.
Qed.

Lemma rstrip_length s : (String.length (rstrip s) <= String.length s)%nat.
Proof.
  induction s as [|c s IH]; [reflexivity|].
  cbn [rstrip]. destruct (rstrip s) as [|x r]; [destruct (is_space c)|];
    cbn [String.length] in *; lia.
Qed.

Lemma all_chars_app p a b :
  all_chars p (a ++ b) = (all_chars p a && all_chars p b)%bool.
Proof.
  induction a as [|c a IH]; [reflexivity|].
  cbn [append all_chars]. now rewrite IH, andb_assoc.
Qed.

Lemma all_chars_lower s : all_chars (fun c => negb (is_upper c)) (lower s) = true.
Proof.
  induction s as [|c s IH]; [reflexivity|].
  cbn [lower all_chars]. now rewrite lower_char_not_upper, IH.
Qed.

Lemma all_chars_remove_unkept p s :
  all_chars p s = true ->
  all_chars (fun c => (is_kept c && p c)%bool) (remove_unkept s) = true.
Proof.
  induction s as [|c s IH]; [reflexivity|].
  cbn [all_chars remove_unkept]. intros H. apply andb_true_iff in H as [Hc Hs].
  destruct (is_kept c) eqn:Hk; [|auto].
  cbn [all_chars]. now rewrite Hk, Hc, IH.
Qed.

Lemma all_chars_collapse p b s :
  all_chars p s = true -> p " "%char = true ->
  all_chars (fun c => (p c && (negb (is_space c) || Ascii.eqb c " "))%bool)
    (collapse_from b s) = true.
Proof.
  intros Hs Hsp. revert b. induction s as [|c s IH]; intros b; [reflexivity|].
  cbn [all_chars] in Hs. apply andb_true_iff in Hs as [Hc Hs].
  cbn [collapse_from]. destruct (is_space c) eqn:E; [destruct b|]; cbn [all_chars].
  - now apply IH.
  - rewrite Hsp, IH by assumption. reflexivity.
  - rewrite Hc, E, IH by assumption. reflexivity.
Qed.

Lemma all_chars_replace_scan p old new :
  all_chars p new = true ->
  forall s k, all_chars p s = true -> all_chars p (replace_scan old new k s) = true.
Proof.
  intros Hnew. induction s as [|c s IH]; intros k Hs; [reflexivity|].
  cbn [all_chars] in Hs. apply andb_true_iff in Hs as [Hc Hs].
  cbn [replace_scan]. destruct k as [|k]; [|now apply IH].
  destruct (prefix old (String c s)).
  - rewrite all_chars_app, Hnew. now apply IH.
  - cbn [all_chars]. rewrite Hc. now apply IH.
Qed.

Lemma all_chars_replace p old new s :
  old <> "" -> all_chars p new = true -> all_chars p s = true ->
  all_chars p (replace old new s) = true.
Proof.
  intros Hold Hnew Hs. destruct old; [congruence|].
  now apply all_chars_replace_scan.
Qed.

Lemma all_chars_lstrip p s : all_chars p s = true -> all_chars p (lstrip s) = true.
Proof.
  induction s as [|c s IH]; [reflexivity|]. intros H.
  cbn [lstrip]. destruct (is_space c); [|exact H].
  cbn [all_chars] in H. apply andb_true_iff in H as [_ H]. now apply IH.
Qed.

Lemma all_chars_rstrip p s : all_chars p s = true -> all_chars p (rstrip s) = true.
Proof.
  induction s as [|c s IH]; [reflexivity|]. intros H.
  cbn [all_chars] in H. apply andb_true_iff in H as [Hc H].
  cbn [rstrip]. specialize (IH H). destruct (rstrip s) as [|x r].
  - destruct (is_space c); [reflexivity | cbn [all_chars]; now rewrite Hc].
  - cbn [all_chars] in *. now rewrite Hc, IH.
Qed.

Lemma lstrip_first s : not_space (first_char (lstrip s)).
Proof.
  induction s as [|c s IH]; [exact I|].
  cbn [lstrip]. destruct (is_space c) eqn:E; [exact IH | exact E].
Qed.

Lemma rstrip_first s : not_space (first_char s) -> not_space (first_char (rstrip s)).
Proof.
  destruct s as [|c s]; [intros _; exact I|]. cbn [first_char not_space]. intros Hc.
  cbn [rstrip]. destruct (rstrip s); [rewrite Hc|]; exact Hc.
Qed.

Lemma rstrip_last s : not_space (last_char (rstrip s)).
Proof.
  induction s as [|c s IH]; [exact I|].
  cbn [rstrip]. destruct (rstrip s) as [|x r] eqn:E.
  - destruct (is_space c) eqn:Ec; [exact I | exact Ec].
  - exact IH.
Qed.

End TextFacts.

(** X7. What [clean_text] returns is in normal form: every character is
    one that the first [re.sub] keeps, none is upper case, the only white
    space is the space character, and the text neither begins nor ends
    with white space. *)
Theorem clean_text_normal_form (text : option string) :
  all_chars clean_char (clean_text text) = true
  /\ not_space (first_char (clean_text text))
  /\ not_space (last_char (clean_text text)).
Proof.
  destruct text as [text|]; [|repeat split].
  rewrite clean_text_stages. unfold PyStr.strip. split; [|split].
  - apply all_chars_rstrip, all_chars_lstrip.
    unfold abbreviate4, abbreviate3, abbreviate2, abbreviate1.
    repeat (apply all_chars_replace; [discriminate | reflexivity |]).
    unfold scrubbed, PyStr.collapse_spaces, clean_char.
    apply (all_chars_collapse
             (fun c => (PyStr.is_kept c && negb (PyStr.is_upper c))%bool));
      [|reflexivity].
    apply (all_chars_remove_unkept (fun c => negb (PyStr.is_upper c))).
    apply all_chars_lower.
  - apply rstrip_first, lstrip_first.
  - apply rstrip_last.
Qed.

(** X8. [clean_text] never returns a text longer than the one it is
    given. *)
Theorem clean_text_not_longer (text : string) :
  (String.length (clean_text (Some text)) <= String.length text)%nat.
Proof.
  rewrite clean_text_stages.
  unfold PyStr.strip, abbreviate4, abbreviate3, abbreviate2, abbreviate1,
    PyStr.replace, scrubbed, PyStr.collapse_spaces.
  eapply Nat.le_trans; [apply rstrip_length|].
  eapply Nat.le_trans; [apply lstrip_length|].
  eapply Nat.le_trans;
    [apply (replace_scan_length "h" "ighschool" "highsch" ltac:(cbn; lia) _ _ (le_n _))|].
  eapply Nat.le_trans;
    [apply (replace_scan_length "s" "chool" "sch" ltac:(cbn; lia) _ _ (le_n _))|].
  eapply Nat.le_trans;
    [apply (replace_scan_length "n" "ational" "nat" ltac:(cbn; lia) _ _ (le_n _))|].
  eapply Nat.le_trans;
    [apply (replace_scan_length "h" "igh school" "highschool" ltac:(cbn; lia)
              _ _ (le_n _))|].
  eapply Nat.le_trans; [apply collapse_from_length|].
  eapply Nat.le_trans; [apply remove_unkept_length|].
  now rewrite lower_length.
Qed.

(** X9. The bar that [predict_single_ml] puts between the name and the
    municipality does not reach the vectorizer: the text it hands over is
    the cleaned text of the two joined by a space, the join that the
    rule-based classifier searches. *)
Theorem cleaned_input_without_bar (school : School) :
  cleaned_input school
  = clean_text (Some (name school ++ " " ++ municipality school)).
Proof.
  unfold cleaned_input. rewrite !clean_text_stages. do 5 f_equal.
  unfold scrubbed, PyStr.collapse_spaces.
  rewrite !lower_app, !remove_unkept_app.
  change (PyStr.remove_unkept (PyStr.lower " | ")) with "  ".
  change (PyStr.remove_unkept (PyStr.lower " ")) with " ".
  apply collapse_from_two_spaces.
Qed.

Lemma cleaned_input_lower school :
  cleaned_input (lower_school school) = cleaned_input school.
Proof.
  unfold cleaned_input, lower_school. cbn [name municipality].
  rewrite !clean_text_stages. do 5 f_equal. unfold scrubbed. do 2 f_equal.
  now rewrite !lower_app, !lower_idempotent.
Qed.

Lemma predict_single_rule_lower school :
  predict_single_rule (lower_school school) = predict_single_rule school.
Proof.
  unfold predict_single_rule, lower_school. cbn [name municipality].
  now rewrite !lower_app, !lower_idempotent.
Qed.

Lemma chosen_lower env school : chosen env (lower_school school) = chosen env school.
Proof.
  unfold chosen. now rewrite cleaned_input_lower, predict_single_rule_lower.
Qed.

(** X10. The classification ignores the case of the record: the response
    for a record and the response for the same record in lower case agree
    on every key but the two that echo the record. *)
Theorem predict_single_ignores_case (env : Env) (now : spec_float) (school : School) :
  exists d d',
    predict_single env now school = Ok d
    /\ predict_single env now (lower_school school) = Ok d'
    /\ forall k, k <> "school" -> k <> "municipality" -> field d k = field d' k.
Proof.
  destruct (predict_single_chosen env now school) as [(n & Hn & H) | (e & He & H)];
    destruct (predict_single_chosen env now (lower_school school))
      as [(n' & Hn' & H') | (e' & He' & H')];
    rewrite chosen_lower in *.
  - rewrite Hn in Hn'. injection Hn' as <-.
    rewrite H, H'. do 2 eexists. split; [reflexivity|]. split; [reflexivity|].
    intros k H1 H2. apply String.eqb_neq in H1, H2.
    unfold field. cbn [PyDict.get]. now rewrite H1, H2.
  - rewrite He' in Hn. discriminate.
  - rewrite He in Hn'. discriminate.
  - rewrite He in He'. injection He' as <-.
    rewrite H, H'. do 2 eexists. split; [reflexivity|]. split; [reflexivity|].
    intros k H1 H2. apply String.eqb_neq in H1, H2.
    unfold field. cbn [PyDict.get]. now rewrite H1, H2.
Qed.

(** A keyword without a space is found in two texts joined by a space
    exactly when it is found in one of them. *)
Lemma prefix_before_space k a b :
  avoids " " k = true -> prefix k (a ++ String " " b) = prefix k a.
Proof.
  revert a. induction k as [|x k IH]; intros a Hk.
  - now rewrite !prefix_empty.
  - cbn [avoids] in Hk. apply andb_true_iff in Hk as [Hx Hk].
    destruct a as [|c a]; cbn [append].
    + rewrite prefix_cons. apply negb_true_iff in Hx. rewrite Hx. reflexivity.
    + rewrite !prefix_cons, IH by exact Hk. reflexivity.
Qed.

Lemma contains_across_space k a b :
  k <> "" -> avoids " " k = true ->
  PyStr.contains k (a ++ String " " b)
  = (PyStr.contains k a || PyStr.contains k b)%bool.
Proof.
  intros Hne Hk. induction a as [|c a IH].
  - cbn [append PyStr.contains].
    change (String " " b) with ("" ++ String " " b) at 1.
    rewrite prefix_before_space by exact Hk.
    destruct k; [congruence | reflexivity].
  - cbn [append PyStr.contains]. rewrite IH.
    change (String c (a ++ String " " b)) with (String c a ++ String " " b).
    rewrite prefix_before_space by exact Hk. now rewrite orb_assoc.
Qed.

Lemma found_in_a_field k school :
  k <> "" -> avoids " " k = true ->
  PyStr.contains k (PyStr.lower (name school ++ " " ++ municipality school)) = true
  <-> in_a_field k school.
Proof.
  intros Hne Hk. unfold in_a_field. rewrite !lower_app.
  change (PyStr.lower " " ++ PyStr.lower (municipality school))
    with (String " " (PyStr.lower (municipality school))).
  rewrite contains_across_space, orb_true_iff, !contains_occurs by assumption.
  reflexivity.
Qed.

(** X11. The rule-based classifier looks at the two fields one by one: no
    keyword is found across the join. The cluster is 0 exactly when
    [inabanga] or [dagohoy] occurs in the lower-cased name or in the
    lower-cased municipality, 2 exactly when none of them does and
    [tubigon], [cawayanan] or [cabulijan] does, and 1 exactly when none of
    the five occurs in either field. *)
Theorem predict_single_rule_by_field (school : School) :
  let first := in_a_field "inabanga" school \/ in_a_field "dagohoy" school in
  let second := in_a_field "tubigon" school \/ in_a_field "cawayanan" school
                \/ in_a_field "cabulijan" school in
  (fst (predict_single_rule school) = 0 <-> first)
  /\ (fst (predict_single_rule school) = 2 <-> ~ first /\ second)
  /\ (fst (predict_single_rule school) = 1 <-> ~ first /\ ~ second).
Proof.
  intros first second. subst first second.
  rewrite <- !found_in_a_field by (reflexivity || discriminate).
  unfold predict_single_rule.
  set (text := PyStr.lower _).
  destruct (PyStr.contains "inabanga" text), (PyStr.contains "dagohoy" text),
    (PyStr.contains "tubigon" text), (PyStr.contains "cawayanan" text),
    (PyStr.contains "cabulijan" text); cbn [orb fst];
    intuition (discriminate || auto).
Qed.

(** ** The ends of the percentage scale *)

Section Extremes.
Import PyFloat.

Lemma nearest_quotient_of_zero s : 0 < s -> nearest_quotient false 0 s = S754_zero false.
Proof.
  intros Hs.
  pose proof (nearest_quotient_bounded false 0 s 0 0 ltac:(lia) Hs
                ltac:(unfold emax, prec; lia) eq_refl eq_refl ltac:(lia)) as H.
  destruct (nearest_quotient false 0 s) as [sg|sg| |sg m e]; try contradiction.
  - now subst sg.
  - destruct H as [_ H]. exfalso.
    pose proof (pow2_pos (e - Z.min e 0) ltac:(lia)). nia.
Qed.

Lemma nearest_quotient_of_equal s :
  0 < s -> nearest_quotient false s s = S754_finite false 4503599627370496 (-52).
Proof.
  intros Hs. unfold nearest_quotient, SFdiv_core_binary.
  replace (Zdigits2 s + 0 - (Zdigits2 s + 0)) with 0 by lia.
  change (Z.min (fexp prec emax 0) (0 - 0)) with (-53).
  change (0 - 0 - -53) with 53. cbv iota.
  rewrite Z.shiftl_mul_pow2 by lia.
  assert (Hdiv : Z.div_eucl (s * 2 ^ 53) s = (2 ^ 53, 0)).
  { pose proof (Z_div_mod (s * 2 ^ 53) s ltac:(lia)) as H.
    destruct (Z.div_eucl (s * 2 ^ 53) s) as [q r]. destruct H as [Hq Hr].
    assert (q = 2 ^ 53) by nia. subst q. f_equal. lia. }
  rewrite Hdiv. unfold new_location.
  destruct (Z.even s); reflexivity.
Qed.

(** The percentage of a cluster that has every success is the float
    100.0, and that of a cluster that has none, while another has some,
    is the float 0.0. *)
Lemma rounded_percentage_extremes successful :
  0 < successful ->
  rounded_percentage successful successful
  = Ok (VFloat (S754_finite false 7036874417766400 (-46)))
  /\ rounded_percentage 0 successful = Ok (VFloat (S754_zero false)).
Proof.
  intros Hs. unfold rounded_percentage, int_true_div.
  replace (0 <? successful) with true by (symmetry; apply Z.ltb_lt; lia).
  replace (successful =? 0) with false by (symmetry; apply Z.eqb_neq; lia).
  replace (successful <? 0) with false by (symmetry; apply Z.ltb_ge; lia).
  rewrite Z.abs_eq by lia. cbn [Z.ltb Z.compare xorb Z.abs].
  rewrite nearest_quotient_of_equal, nearest_quotient_of_zero by exact Hs.
  split; reflexivity.
Qed.

End Extremes.

(** X12. In the summary of a batch in which some record succeeded, a
    cluster that holds every success shows the float 100.0 and a cluster
    that holds none shows the float 0.0, whatever the number of
    records. *)
Theorem percentage_extremes (env : Env) (clock : Clock) (batch : BatchRequest)
    (d : dict) :
  schools batch <> [] ->
  get_cluster_batch env clock batch = Ok d ->
  exists rs,
    field d "results" = Some (VList rs)
    /\ forall k, 0 <= k <= 2 -> 0 < count_of is_success rs ->
       (count_of (in_cluster k) rs = count_of is_success rs ->
        cluster_stat d (Z.to_nat k) "percentage"
        = Some (VFloat (S754_finite false 7036874417766400 (-46))))
       /\ (count_of (in_cluster k) rs = 0 ->
           cluster_stat d (Z.to_nat k) "percentage" = Some (VFloat (S754_zero false))).
Proof.
  intros Hne H.
  destruct (get_cluster_batch_inv _ _ _ _ Hne H)
    as (rs & n0 & n1 & n2 & p0 & p1 & p2 & seconds & dom & _ & -> & -> & -> & _
        & Hp0 & Hp1 & Hp2 & _ & _ & ->).
  exists rs. split; [reflexivity|]. intros k Hk Hs.
  destruct (rounded_percentage_extremes _ Hs) as [Hall Hnone].
  assert (k = 0 \/ k = 1 \/ k = 2) as [-> | [-> | ->]] by lia;
    (split; intros E; rewrite E in *;
     try change (Z.to_nat 1) with 1%nat; try change (Z.to_nat 2) with 2%nat;
     cbn; congruence).
Qed.

Lemma percentage_extremes_witness :
  schools {| schools := [inabanga_school] |} <> []
  /\ exists d,
       get_cluster_batch env_without_model still_clock
         {| schools := [inabanga_school] |} = Ok d
       /\ cluster_stat d 0 "percentage"
          = Some (VFloat (PyFloat.nearest_quotient false 1000 10))
       /\ cluster_stat d 1 "percentage" = Some (VFloat (S754_zero false))
       /\ exists rs,
            field d "results" = Some (VList rs)
            /\ forall k, 0 <= k <= 2 -> 0 < count_of is_success rs ->
               (count_of (in_cluster k) rs = count_of is_success rs ->
                cluster_stat d (Z.to_nat k) "percentage"
                = Some (VFloat (S754_finite false 7036874417766400 (-46))))
               /\ (count_of (in_cluster k) rs = 0 ->
                   cluster_stat d (Z.to_nat k) "percentage"
                   = Some (VFloat (S754_zero false))).
Proof.
  split; [discriminate|].
  eexists. split; [vm_compute; reflexivity|].
  do 2 (split; [vm_compute; reflexivity|]).
  apply (percentage_extremes env_without_model still_clock
           {| schools := [inabanga_school] |});
    [discriminate | vm_compute; reflexivity].
Defined.

(** ** After a failed load *)

(** X13. A load that fails makes no request fail. When start-up leaves
    the flag false, the health response says [degraded]; every record
    gets a successful response with the cluster of the rule-based
    classifier and the tag [rule_based]; and every batch request
    returns. *)
Theorem fallback_after_failed_load {M V : Type} (load_model : Exc M)
    (load_vectorizer : Exc V) (describe_model : M -> Exc Z)
    (describe_vectorizer : V -> Exc Z) (predict : M -> V -> string -> Exc Z) :
  flag (startup load_model load_vectorizer describe_model describe_vectorizer) = false ->
  (forall stamp,
     exists h,
       health_check
         (env_after predict
            (startup load_model load_vectorizer describe_model describe_vectorizer))
         stamp = Ok h
       /\ field h "status" = Some (VStr "degraded")
       /\ field h "model_loaded" = Some (VBool false))
  /\ (forall now school,
        exists d,
          predict_single
            (env_after predict
               (startup load_model load_vectorizer describe_model describe_vectorizer))
            now school = Ok d
          /\ field d "cluster_id" = Some (VInt (fst (predict_single_rule school)))
          /\ field d "model_used" = Some (VStr "rule_based")
          /\ field d "success" = Some (VBool true))
  /\ (forall clock batch,
        elapsed_is_binary64 clock ->
        exists d,
          get_cluster_batch
            (env_after predict
               (startup load_model load_vectorizer describe_model describe_vectorizer))
            clock batch = Ok d).
Proof.
  intros Hflag.
  set (env := env_after predict _).
  assert (Henv : MODEL_LOADED env = false) by exact Hflag.
  split; [|split].
  - intros stamp. unfold health_check. cbn [bind cluster_entry].
    change (get_cluster_name 0) with (@Ok string "Inabanga  Schools").
    change (get_cluster_name 1) with (@Ok string "Clarin Schools").
    change (get_cluster_name 2) with (@Ok string "Tubigon  Schools").
    change (get_cluster_color 0) with (@Ok string "#0088FE").
    change (get_cluster_color 1) with (@Ok string "#00C49F").
    change (get_cluster_color 2) with (@Ok string "#FFBB28").
    cbn [bind]. rewrite Henv. eexists. repeat split.
  - intros now school. exact (predict_single_without_model env now school Henv).
  - intros clock batch Hclock.
    apply get_cluster_batch_returns; [|exact Hclock].
    intros Htrue. congruence.
Qed.

Lemma fallback_after_failed_load_witness :
  flag (startup (M := unit) (V := unit) (Raise (ExternalError "no such file"))
          (Ok tt) (fun _ => Ok 3) (fun _ => Ok 100)) = false
  /\ exists d,
       predict_single
         (env_after (fun _ _ _ => Ok 0)
            (startup (M := unit) (V := unit) (Raise (ExternalError "no such file"))
               (Ok tt) (fun _ => Ok 3) (fun _ => Ok 100)))
         (S754_zero false) tubigon_school = Ok d
       /\ field d "cluster_id" = Some (VInt (fst (predict_single_rule tubigon_school)))
       /\ field d "model_used" = Some (VStr "rule_based")
       /\ field d "success" = Some (VBool true).
Proof.
  split; [reflexivity|].
  apply (fallback_after_failed_load (M := unit) (V := unit)
           (Raise (ExternalError "no such file")) (Ok tt)
           (fun _ => Ok 3) (fun _ => Ok 100) (fun _ _ _ => Ok 0) eq_refl).
Defined.
